(** * SH1107 display controller chip (src/main.c): model and properties

    The chip is a byte-level protocol state machine fed by an I2C bus and a
    renderer that turns the display RAM into a 32-bit-per-pixel frame.
    Every C function of [main.c] is embedded below as a function on the
    [sh1107_state_t] record.  Fixed-width C integers are integers of [Z]
    with the wrap-around written out ([u8], [u32]); C arrays are lists
    whose accesses are bounds-checked, an out-of-bounds access being
    undefined behaviour and hence [None]. *)

From stdpp Require Import base numbers option list gmap.

Local Open Scope Z_scope.

(** ** Machine integers *)

Definition u8 (z : Z) : Z := z mod 256.
Definition u32 (z : Z) : Z := z mod 4294967296.

(** Conversion of a C integer used as a condition. *)
Definition truthy (z : Z) : bool := negb (z =? 0).

(** ** Opcodes and control-byte bits *)

Definition SH1107_CONTROL_CO : Z := 0x80.
Definition SH1107_CONTROL_DC : Z := 0x40.

Definition CMD_SET_PAGE_ADDR_MODE : Z := 0x20.
Definition CMD_SET_VERTICAL_ADDR_MODE : Z := 0x21.
Definition CMD_SET_CONTRAST : Z := 0x81.
Definition CMD_SEG_REMAP_OFF : Z := 0xa0.
Definition CMD_SEG_REMAP_ON : Z := 0xa1.
Definition CMD_DISPLAY_ALL_ON_RESUME : Z := 0xa4.
Definition CMD_DISPLAY_ALL_ON : Z := 0xa5.
Definition CMD_NORMAL_DISPLAY : Z := 0xa6.
Definition CMD_INVERT_DISPLAY : Z := 0xa7.
Definition CMD_SET_MULTIPLEX : Z := 0xa8.
Definition CMD_DCDC : Z := 0xad.
Definition CMD_DISPLAY_OFF : Z := 0xae.
Definition CMD_DISPLAY_ON : Z := 0xaf.
Definition CMD_COM_SCAN_INC : Z := 0xc0.
Definition CMD_COM_SCAN_DEC : Z := 0xc8.
Definition CMD_SET_DISPLAY_OFFSET : Z := 0xd3.
Definition CMD_SET_DISPLAY_CLOCK_DIV : Z := 0xd5.
Definition CMD_SET_PRECHARGE : Z := 0xd9.
Definition CMD_SET_COM_PINS : Z := 0xda.
Definition CMD_SET_VCOM_DESELECT : Z := 0xdb.
Definition CMD_SET_DISP_START_LINE : Z := 0xdc.
Definition CMD_READ_MODIFY_WRITE : Z := 0xe0.
Definition CMD_END : Z := 0xee.
Definition CMD_NOP : Z := 0xe3.

(** ** The parameter-count table

    [const uint8_t multi_byte_commands[] = { [CMD_SET_CONTRAST] = 1, ... }]:
    an array without a declared size and with designated initialisers has
    one more element than its largest designated index; the elements that
    are not designated are zero. *)

Definition designated_size (inits : list (Z * Z)) : nat :=
  Z.to_nat (foldr (fun iv m => Z.max (fst iv + 1) m) 0 inits).

Definition designated_array (inits : list (Z * Z)) : list Z :=
  foldl (fun a iv => <[Z.to_nat (fst iv) := snd iv]> a)
        (replicate (designated_size inits) 0) inits.

Definition multi_byte_commands : list Z :=
  designated_array
    [ (CMD_SET_CONTRAST, 1);
      (CMD_SET_MULTIPLEX, 1);
      (CMD_DCDC, 1);
      (CMD_SET_DISPLAY_OFFSET, 1);
      (CMD_SET_COM_PINS, 1);
      (CMD_SET_DISPLAY_CLOCK_DIV, 1);
      (CMD_SET_PRECHARGE, 1);
      (CMD_SET_VCOM_DESELECT, 1);
      (CMD_SET_DISP_START_LINE, 1) ].

(** ** Device state

    [sh1107_state_t], field by field.  The two host handles are modelled
    by what they stand for: [framebuffer] is the content of the pixel sink
    (byte offset to byte) and [update_timer] the list of [timer_start]
    requests made on the timer (delay in microseconds, repeat flag), most
    recent first.  [console] is not a field of the C struct: it collects
    the opcodes reported by [printf], oldest first. *)

Record sh1107_state_t : Type := mk_state {
  width : Z;
  height : Z;
  x_offset : Z;
  pixels : list Z;
  framebuffer : gmap Z Z;
  update_timer : list (Z * bool);
  display_on : bool;
  updated : bool;
  contrast : Z;
  invert : bool;
  reverse_rows : bool;
  segment_remap : bool;
  clock_divider : Z;
  multiplex_ratio : Z;
  phase1 : Z;
  phase2 : Z;
  active_column : Z;
  active_page : Z;
  memory_mode : Z;
  start_line : Z;
  control_byte : bool;
  continuous_mode : bool;
  command_mode : bool;
  current_command_index : Z;
  current_command_length : Z;
  current_command : list Z;
  console : list Z
}.

Definition PIXELS_SIZE : Z := 128 * 128 / 8.
Definition COMMAND_SIZE : Z := 8.

(** Field assignments. *)

Definition set_width (v : Z) (s : sh1107_state_t) : sh1107_state_t :=
  let 'mk_state _ h xo px fb tm don upd con inv rr sr cd mr p1 p2 ac ap mm sl cb cm cmd ci cl cc co := s in
  mk_state v h xo px fb tm don upd con inv rr sr cd mr p1 p2 ac ap mm sl cb cm cmd ci cl cc co.
Definition set_height (v : Z) (s : sh1107_state_t) : sh1107_state_t :=
  let 'mk_state w _ xo px fb tm don upd con inv rr sr cd mr p1 p2 ac ap mm sl cb cm cmd ci cl cc co := s in
  mk_state w v xo px fb tm don upd con inv rr sr cd mr p1 p2 ac ap mm sl cb cm cmd ci cl cc co.
Definition set_x_offset (v : Z) (s : sh1107_state_t) : sh1107_state_t :=
  let 'mk_state w h _ px fb tm don upd con inv rr sr cd mr p1 p2 ac ap mm sl cb cm cmd ci cl cc co := s in
  mk_state w h v px fb tm don upd con inv rr sr cd mr p1 p2 ac ap mm sl cb cm cmd ci cl cc co.
Definition set_pixels (v : list Z) (s : sh1107_state_t) : sh1107_state_t :=
  let 'mk_state w h xo _ fb tm don upd con inv rr sr cd mr p1 p2 ac ap mm sl cb cm cmd ci cl cc co := s in
  mk_state w h xo v fb tm don upd con inv rr sr cd mr p1 p2 ac ap mm sl cb cm cmd ci cl cc co.
Definition set_framebuffer (v : gmap Z Z) (s : sh1107_state_t) : sh1107_state_t :=
  let 'mk_state w h xo px _ tm don upd con inv rr sr cd mr p1 p2 ac ap mm sl cb cm cmd ci cl cc co := s in
  mk_state w h xo px v tm don upd con inv rr sr cd mr p1 p2 ac ap mm sl cb cm cmd ci cl cc co.
Definition set_update_timer (v : list (Z * bool)) (s : sh1107_state_t) : sh1107_state_t :=
  let 'mk_state w h xo px fb _ don upd con inv rr sr cd mr p1 p2 ac ap mm sl cb cm cmd ci cl cc co := s in
  mk_state w h xo px fb v don upd con inv rr sr cd mr p1 p2 ac ap mm sl cb cm cmd ci cl cc co.
Definition set_display_on (v : bool) (s : sh1107_state_t) : sh1107_state_t :=
  let 'mk_state w h xo px fb tm _ upd con inv rr sr cd mr p1 p2 ac ap mm sl cb cm cmd ci cl cc co := s in
  mk_state w h xo px fb tm v upd con inv rr sr cd mr p1 p2 ac ap mm sl cb cm cmd ci cl cc co.
Definition set_updated (v : bool) (s : sh1107_state_t) : sh1107_state_t :=
  let 'mk_state w h xo px fb tm don _ con inv rr sr cd mr p1 p2 ac ap mm sl cb cm cmd ci cl cc co := s in
  mk_state w h xo px fb tm don v con inv rr sr cd mr p1 p2 ac ap mm sl cb cm cmd ci cl cc co.
Definition set_contrast (v : Z) (s : sh1107_state_t) : sh1107_state_t :=
  let 'mk_state w h xo px fb tm don upd _ inv rr sr cd mr p1 p2 ac ap mm sl cb cm cmd ci cl cc co := s in
  mk_state w h xo px fb tm don upd v inv rr sr cd mr p1 p2 ac ap mm sl cb cm cmd ci cl cc co.
Definition set_invert (v : bool) (s : sh1107_state_t) : sh1107_state_t :=
  let 'mk_state w h xo px fb tm don upd con _ rr sr cd mr p1 p2 ac ap mm sl cb cm cmd ci cl cc co := s in
  mk_state w h xo px fb tm don upd con v rr sr cd mr p1 p2 ac ap mm sl cb cm cmd ci cl cc co.
Definition set_reverse_rows (v : bool) (s : sh1107_state_t) : sh1107_state_t :=
  let 'mk_state w h xo px fb tm don upd con inv _ sr cd mr p1 p2 ac ap mm sl cb cm cmd ci cl cc co := s in
  mk_state w h xo px fb tm don upd con inv v sr cd mr p1 p2 ac ap mm sl cb cm cmd ci cl cc co.
Definition set_segment_remap (v : bool) (s : sh1107_state_t) : sh1107_state_t :=
  let 'mk_state w h xo px fb tm don upd con inv rr _ cd mr p1 p2 ac ap mm sl cb cm cmd ci cl cc co := s in
  mk_state w h xo px fb tm don upd con inv rr v cd mr p1 p2 ac ap mm sl cb cm cmd ci cl cc co.
Definition set_clock_divider (v : Z) (s : sh1107_state_t) : sh1107_state_t :=
  let 'mk_state w h xo px fb tm don upd con inv rr sr _ mr p1 p2 ac ap mm sl cb cm cmd ci cl cc co := s in
  mk_state w h xo px fb tm don upd con inv rr sr v mr p1 p2 ac ap mm sl cb cm cmd ci cl cc co.
Definition set_multiplex_ratio (v : Z) (s : sh1107_state_t) : sh1107_state_t :=
  let 'mk_state w h xo px fb tm don upd con inv rr sr cd _ p1 p2 ac ap mm sl cb cm cmd ci cl cc co := s in
  mk_state w h xo px fb tm don upd con inv rr sr cd v p1 p2 ac ap mm sl cb cm cmd ci cl cc co.
Definition set_phase1 (v : Z) (s : sh1107_state_t) : sh1107_state_t :=
  let 'mk_state w h xo px fb tm don upd con inv rr sr cd mr _ p2 ac ap mm sl cb cm cmd ci cl cc co := s in
  mk_state w h xo px fb tm don upd con inv rr sr cd mr v p2 ac ap mm sl cb cm cmd ci cl cc co.
Definition set_phase2 (v : Z) (s : sh1107_state_t) : sh1107_state_t :=
  let 'mk_state w h xo px fb tm don upd con inv rr sr cd mr p1 _ ac ap mm sl cb cm cmd ci cl cc co := s in
  mk_state w h xo px fb tm don upd con inv rr sr cd mr p1 v ac ap mm sl cb cm cmd ci cl cc co.
Definition set_active_column (v : Z) (s : sh1107_state_t) : sh1107_state_t :=
  let 'mk_state w h xo px fb tm don upd con inv rr sr cd mr p1 p2 _ ap mm sl cb cm cmd ci cl cc co := s in
  mk_state w h xo px fb tm don upd con inv rr sr cd mr p1 p2 v ap mm sl cb cm cmd ci cl cc co.
Definition set_active_page (v : Z) (s : sh1107_state_t) : sh1107_state_t :=
  let 'mk_state w h xo px fb tm don upd con inv rr sr cd mr p1 p2 ac _ mm sl cb cm cmd ci cl cc co := s in
  mk_state w h xo px fb tm don upd con inv rr sr cd mr p1 p2 ac v mm sl cb cm cmd ci cl cc co.
Definition set_memory_mode (v : Z) (s : sh1107_state_t) : sh1107_state_t :=
  let 'mk_state w h xo px fb tm don upd con inv rr sr cd mr p1 p2 ac ap _ sl cb cm cmd ci cl cc co := s in
  mk_state w h xo px fb tm don upd con inv rr sr cd mr p1 p2 ac ap v sl cb cm cmd ci cl cc co.
Definition set_start_line (v : Z) (s : sh1107_state_t) : sh1107_state_t :=
  let 'mk_state w h xo px fb tm don upd con inv rr sr cd mr p1 p2 ac ap mm _ cb cm cmd ci cl cc co := s in
  mk_state w h xo px fb tm don upd con inv rr sr cd mr p1 p2 ac ap mm v cb cm cmd ci cl cc co.
Definition set_control_byte (v : bool) (s : sh1107_state_t) : sh1107_state_t :=
  let 'mk_state w h xo px fb tm don upd con inv rr sr cd mr p1 p2 ac ap mm sl _ cm cmd ci cl cc co := s in
  mk_state w h xo px fb tm don upd con inv rr sr cd mr p1 p2 ac ap mm sl v cm cmd ci cl cc co.
Definition set_continuous_mode (v : bool) (s : sh1107_state_t) : sh1107_state_t :=
  let 'mk_state w h xo px fb tm don upd con inv rr sr cd mr p1 p2 ac ap mm sl cb _ cmd ci cl cc co := s in
  mk_state w h xo px fb tm don upd con inv rr sr cd mr p1 p2 ac ap mm sl cb v cmd ci cl cc co.
Definition set_command_mode (v : bool) (s : sh1107_state_t) : sh1107_state_t :=
  let 'mk_state w h xo px fb tm don upd con inv rr sr cd mr p1 p2 ac ap mm sl cb cm _ ci cl cc co := s in
  mk_state w h xo px fb tm don upd con inv rr sr cd mr p1 p2 ac ap mm sl cb cm v ci cl cc co.
Definition set_current_command_index (v : Z) (s : sh1107_state_t) : sh1107_state_t :=
  let 'mk_state w h xo px fb tm don upd con inv rr sr cd mr p1 p2 ac ap mm sl cb cm cmd _ cl cc co := s in
  mk_state w h xo px fb tm don upd con inv rr sr cd mr p1 p2 ac ap mm sl cb cm cmd v cl cc co.
Definition set_current_command_length (v : Z) (s : sh1107_state_t) : sh1107_state_t :=
  let 'mk_state w h xo px fb tm don upd con inv rr sr cd mr p1 p2 ac ap mm sl cb cm cmd ci _ cc co := s in
  mk_state w h xo px fb tm don upd con inv rr sr cd mr p1 p2 ac ap mm sl cb cm cmd ci v cc co.
Definition set_current_command (v : list Z) (s : sh1107_state_t) : sh1107_state_t :=
  let 'mk_state w h xo px fb tm don upd con inv rr sr cd mr p1 p2 ac ap mm sl cb cm cmd ci cl _ co := s in
  mk_state w h xo px fb tm don upd con inv rr sr cd mr p1 p2 ac ap mm sl cb cm cmd ci cl v co.
Definition set_console (v : list Z) (s : sh1107_state_t) : sh1107_state_t :=
  let 'mk_state w h xo px fb tm don upd con inv rr sr cd mr p1 p2 ac ap mm sl cb cm cmd ci cl cc _ := s in
  mk_state w h xo px fb tm don upd con inv rr sr cd mr p1 p2 ac ap mm sl cb cm cmd ci cl cc v.

(** ** Construction *)

(** [sh1107_reset]: the fields it does not assign keep what the memory
    held before. *)
Definition sh1107_reset (s : sh1107_state_t) : sh1107_state_t :=
  let s := set_width 128 s in
  let s := set_height 128 s in
  let s := set_x_offset 96 s in
  let s := set_memory_mode CMD_SET_PAGE_ADDR_MODE s in
  let s := set_contrast 0x7f s in
  let s := set_clock_divider 1 s in
  let s := set_multiplex_ratio 63 s in
  let s := set_phase1 2 s in
  let s := set_phase2 2 s in
  let s := set_current_command_index 0 s in
  let s := set_active_column 0 s in
  let s := set_active_page 0 s in
  let s := set_start_line 0 s in
  let s := set_reverse_rows false s in
  let s := set_invert false s in
  set_updated false s.

(** ** Renderer *)

(** Host API [buffer_write (buffer, offset, data, data_len)]: copies the
    bytes of [data] into the pixel sink from byte [offset] on. *)
Fixpoint buffer_write (fb : gmap Z Z) (offset : Z) (data : list Z) : gmap Z Z :=
  match data with
  | [] => fb
  | b :: data' => buffer_write (<[offset := b]> fb) (offset + 1) data'
  end.

(** The object representation of a [uint32_t] (little-endian target). *)
Definition uint32_bytes (v : Z) : list Z :=
  [ Z.land v 255;
    Z.land (Z.shiftr v 8) 255;
    Z.land (Z.shiftr v 16) 255;
    Z.land (Z.shiftr v 24) 255 ].

(** [for (uint8_t i = start; i < bound; i++) body]: the counter wraps at
    256 as a [uint8_t] does; [fuel] bounds the number of tests of the loop
    condition. *)
Fixpoint for_u8 {A : Type} (fuel : nat) (bound : Z) (body : Z -> A -> option A)
    (i : Z) (a : A) : option A :=
  match fuel with
  | O => None
  | S fuel' =>
      if i <? bound then
        match body i a with
        | Some a' => for_u8 fuel' bound body (u8 (i + 1)) a'
        | None => None
        end
      else Some a
  end.

(** A [uint8_t] bound is at most 255, so 256 tests always suffice. *)
Definition U8_LOOP_FUEL : nat := 256.

Section Render.
Variable s : sh1107_state_t.

(** The locals of [sh1107_update_buffer]; [width] and [height] are
    narrowed to [uint8_t] there. *)
Definition render_invert : Z := Z.b2z (invert s).
Definition render_width : Z := u8 (width s).
Definition render_height : Z := u8 (height s).

Definition scroll_y (y : Z) : Z := u32 (y + start_line s).

(** [height - 1 - scroll_y] is computed on [uint32_t], and so is the
    remainder. *)
Definition virtual_y (y : Z) : Z :=
  (if reverse_rows s then u32 (render_height - 1 - scroll_y y) else scroll_y y)
    mod render_width.

(** [(x + x_offset + width) % width] is computed on [int] (the remainder
    truncates towards zero) and converted to [uint32_t] by the sum. *)
Definition pix_index (x y : Z) : Z :=
  u32 ((virtual_y y / 8) * render_width
       + Z.rem (x + x_offset s + render_width) render_width).

Definition data_offset (x y : Z) : Z := u32 ((y * render_width + x) * 4).

(** The body of the inner loop; reading [pixels] outside the array or
    dividing by a zero width is undefined. *)
Definition update_pixel (y x : Z) (fb : gmap Z Z) : option (gmap Z Z) :=
  if render_width =? 0 then None
  else
    match pixels s !! Z.to_nat (pix_index x y) with
    | None => None
    | Some p =>
        let pixValue :=
          truthy (if truthy (Z.land p (Z.shiftl 1 (virtual_y y mod 8)))
                  then Z.b2z (negb (truthy render_invert))
                  else render_invert) in
        let pixel := if pixValue && display_on s then 0xffffffff else 0 in
        Some (buffer_write fb (data_offset x y) (uint32_bytes pixel))
    end.

Definition update_row (y : Z) (fb : gmap Z Z) : option (gmap Z Z) :=
  for_u8 U8_LOOP_FUEL render_width (update_pixel y) 0 fb.

Definition update_rows (fb : gmap Z Z) : option (gmap Z Z) :=
  for_u8 U8_LOOP_FUEL render_height update_row 0 fb.
End Render.

Definition sh1107_update_buffer (s : sh1107_state_t) : option sh1107_state_t :=
  match update_rows s (framebuffer s) with
  | Some fb => Some (set_updated false (set_framebuffer fb s))
  | None => None
  end.

Definition sh1107_schedule_update (s : sh1107_state_t) : sh1107_state_t :=
  if negb (updated s) then
    set_update_timer ((16667, false) :: update_timer s) (set_updated true s)
  else s.

(** ** Command interpreter *)

(** [state->current_command[i]] for a constant [i] below 8. *)
Definition command_at (s : sh1107_state_t) (i : nat) : Z :=
  default 0 (current_command s !! i).

(** [printf ("Unknown SH1107 Command %02x\n", command_code)]. *)
Definition print_unknown (command_code : Z) (s : sh1107_state_t) : sh1107_state_t :=
  set_console (console s ++ [command_code]) s.

(** The [switch] of [sh1107_process_command]: the state it leaves and the
    value of the local [auto_update]. *)
Definition command_switch (s : sh1107_state_t) : sh1107_state_t * bool :=
  let command_code := command_at s 0 in
  if command_code =? CMD_SET_CONTRAST then
    (set_contrast (command_at s 1) s, true)
  else if command_code =? CMD_DISPLAY_OFF then
    (sh1107_schedule_update (set_display_on false s), false)
  else if command_code =? CMD_DISPLAY_ON then
    (sh1107_schedule_update (set_display_on true s), false)
  else if command_code =? CMD_NORMAL_DISPLAY then
    (set_invert false s, true)
  else if command_code =? CMD_INVERT_DISPLAY then
    (set_invert true s, true)
  else if command_code =? CMD_NOP then
    (s, false)
  else if (command_code =? CMD_SET_PAGE_ADDR_MODE)
          || (command_code =? CMD_SET_VERTICAL_ADDR_MODE) then
    (set_memory_mode (command_at s 0) s, false)
  else if command_code =? CMD_SET_DISPLAY_CLOCK_DIV then
    (set_clock_divider (u8 (1 + Z.land (command_at s 1) 0xf)) s, false)
  else if command_code =? CMD_SET_PRECHARGE then
    (set_phase2 (u8 (Z.land (Z.shiftr (command_at s 1) 4) 0xf))
       (set_phase1 (u8 (Z.land (command_at s 1) 0xf)) s), false)
  else if command_code =? CMD_COM_SCAN_INC then
    (set_reverse_rows false s, true)
  else if command_code =? CMD_COM_SCAN_DEC then
    (set_reverse_rows true s, true)
  else if command_code =? CMD_SEG_REMAP_OFF then
    (set_segment_remap false s, true)
  else if command_code =? CMD_SEG_REMAP_ON then
    (set_segment_remap true s, true)
  else if command_code =? CMD_SET_DISP_START_LINE then
    (set_start_line (command_at s 1) s, true)
  else if (command_code =? CMD_SET_DISPLAY_OFFSET)
          || (command_code =? CMD_SET_MULTIPLEX)
          || (command_code =? CMD_SET_VCOM_DESELECT)
          || (command_code =? CMD_SET_COM_PINS)
          || (command_code =? CMD_DISPLAY_ALL_ON)
          || (command_code =? CMD_DISPLAY_ALL_ON_RESUME) then
    (s, false)
  else if command_code <=? 0x0f then
    (set_active_column (u8 (Z.lor (Z.land (active_column s) 0x70) command_code)) s,
     false)
  else if (0x10 <=? command_code) && (command_code <=? 0x17) then
    (set_active_column
       (u8 (Z.lor (Z.land (active_column s) 0x0f)
                  (Z.shiftl (Z.land command_code 0x07) 4))) s,
     false)
  else if (0xb0 <=? command_code) && (command_code <=? 0xc0) then
    (set_active_page (u8 (Z.land command_code 0x0f)) s, true)
  else
    (print_unknown command_code s, false).

Definition sh1107_process_command (s : sh1107_state_t) : sh1107_state_t :=
  let '(s1, auto_update) := command_switch s in
  let s2 := if auto_update && display_on s1 then sh1107_schedule_update s1 else s1 in
  set_current_command_index 0 s2.

(** ** Data writer *)

(** The address advance of [sh1107_process_data] (its second [switch]). *)
Definition next_column (s : sh1107_state_t) : sh1107_state_t :=
  let s := set_active_column (u8 (active_column s + 1)) s in
  if width s <=? active_column s then set_active_column 0 s else s.

Definition advance_address (s : sh1107_state_t) : sh1107_state_t :=
  if memory_mode s =? CMD_SET_PAGE_ADDR_MODE then next_column s
  else
    let s := set_active_page (u8 (active_page s + 1)) s in
    if 0x10 <=? active_page s then next_column (set_active_page 0 s) else s.

Definition data_column (s : sh1107_state_t) : Z :=
  if negb (segment_remap s) then active_column s
  else u32 (width s - 1 - active_column s).

Definition data_target (s : sh1107_state_t) : Z :=
  u32 (active_page s * width s + data_column s).

(** Storing outside [pixels] is undefined. *)
Definition sh1107_process_data (s : sh1107_state_t) (value : Z) : option sh1107_state_t :=
  match pixels s !! Z.to_nat (data_target s) with
  | None => None
  | Some _ =>
      let s := set_pixels (<[Z.to_nat (data_target s) := value]> (pixels s)) s in
      Some (sh1107_schedule_update (advance_address s))
  end.

(** ** Bus callbacks *)

Definition sh1107_i2c_connect (s : sh1107_state_t) (address : Z) (connect : bool)
    : sh1107_state_t * bool :=
  (set_control_byte true s, true).

Definition sh1107_i2c_read (s : sh1107_state_t) : Z := 0xff.

(** The tail shared by the command and data paths of [sh1107_i2c_write]. *)
Definition end_of_byte (s : sh1107_state_t) : sh1107_state_t * bool :=
  ((if negb (continuous_mode s) then set_control_byte true s else s), true).

(** [1 + multi_byte_commands[value]], read only for the first byte of a
    command; reading past the end of the table is undefined. *)
Definition lookup_command_length (s : sh1107_state_t) (value : Z) : option sh1107_state_t :=
  if negb (truthy (current_command_index s)) then
    match multi_byte_commands !! Z.to_nat value with
    | Some n => Some (set_current_command_length (u8 (1 + n)) s)
    | None => None
    end
  else Some s.

Definition sh1107_i2c_write (s : sh1107_state_t) (value : Z)
    : option (sh1107_state_t * bool) :=
  if control_byte s then
    let s := set_command_mode (negb (truthy (Z.land value SH1107_CONTROL_DC))) s in
    let s := set_continuous_mode (negb (truthy (Z.land value SH1107_CONTROL_CO))) s in
    Some (set_control_byte false s, true)
  else if command_mode s then
    match current_command s !! Z.to_nat (current_command_index s) with
    | None => None
    | Some _ =>
        let s := set_current_command
                   (<[Z.to_nat (current_command_index s) := value]> (current_command s)) s in
        match lookup_command_length s value with
        | None => None
        | Some s =>
            let s := set_current_command_index (u8 (current_command_index s + 1)) s in
            if current_command_index s <? current_command_length s then Some (s, true)
            else Some (end_of_byte (sh1107_process_command s))
        end
    end
  else
    match sh1107_process_data s value with
    | None => None
    | Some s => Some (end_of_byte s)
    end.

(** ** The host: a sequence of callbacks *)

Inductive host_event : Type :=
  | I2cConnect
  | I2cWrite (value : Z)
  | TimerFire.

Definition step (s : sh1107_state_t) (e : host_event) : option sh1107_state_t :=
  match e with
  | I2cConnect => Some (fst (sh1107_i2c_connect s 0x3c true))
  | I2cWrite value => fst <$> sh1107_i2c_write s value
  | TimerFire => sh1107_update_buffer s
  end.

Fixpoint run (s : sh1107_state_t) (es : list host_event) : option sh1107_state_t :=
  match es with
  | [] => Some s
  | e :: es' =>
      match step s e with
      | Some s' => run s' es'
      | None => None
      end
  end.

(** The memory [malloc] hands to [chip_init], taken to be all zero in the
    examples. *)
Definition blank_memory : sh1107_state_t :=
  mk_state 0 0 0 (replicate (Z.to_nat PIXELS_SIZE) 0) ∅ [] false false 0 false false
           false 0 0 0 0 0 0 0 0 false false false 0 0
           (replicate (Z.to_nat COMMAND_SIZE) 0) [].

(** Host API [framebuffer_init (&width, &height)]: the host reports the
    dimensions of the attached panel through the two pointers. *)
Definition framebuffer_init (panel_width panel_height : Z) (s : sh1107_state_t)
    : sh1107_state_t :=
  set_height panel_height (set_width panel_width s).

(** [chip_init]: the bus and timer registrations leave the state alone. *)
Definition chip_init (memory : sh1107_state_t) (panel_width panel_height : Z)
    : sh1107_state_t :=
  framebuffer_init panel_width panel_height (sh1107_reset memory).

(** The chip on its 128 x 128 panel. *)
Definition fresh_chip : sh1107_state_t := chip_init blank_memory 128 128.

(** ** Representation invariant

    What the C types of the fields guarantee, as far as the properties
    below need it. *)
Record wf_state (s : sh1107_state_t) : Prop := mk_wf {
  wf_pixels : length (pixels s) = Z.to_nat PIXELS_SIZE;
  wf_current_command : length (current_command s) = Z.to_nat COMMAND_SIZE;
  wf_command_bytes : Forall (fun b => 0 <= b < 256) (current_command s);
  wf_x_offset : -128 <= x_offset s < 128;
  wf_start_line : 0 <= start_line s < 256;
  wf_active_column : 0 <= active_column s < 256;
  wf_active_page : 0 <= active_page s < 256;
  wf_current_command_index : 0 <= current_command_index s < 256
}.

(** The same as a computable test. *)
Definition in_range (lo hi v : Z) : bool := (lo <=? v) && (v <? hi).

Definition wf_stateb (s : sh1107_state_t) : bool :=
  Nat.eqb (length (pixels s)) (Z.to_nat PIXELS_SIZE)
  && Nat.eqb (length (current_command s)) (Z.to_nat COMMAND_SIZE)
  && forallb (in_range 0 256) (current_command s)
  && in_range (-128) 128 (x_offset s)
  && in_range 0 256 (start_line s)
  && in_range 0 256 (active_column s)
  && in_range 0 256 (active_page s)
  && in_range 0 256 (current_command_index s).

(** The panel geometry [sh1107_reset] installs. *)
Definition panel_128 (s : sh1107_state_t) : Prop :=
  width s = 128 /\ height s = 128.

(** ** The rendering transform in the words of the specification

    Integer arithmetic, [mod] the mathematical modulus (result in
    [0, width)). *)
Section SpecTransform.
Variable s : sh1107_state_t.

Definition spec_scroll_y (y : Z) : Z := y + start_line s.

Definition spec_virtual_y (y : Z) : Z :=
  (if reverse_rows s then height s - 1 - spec_scroll_y y else spec_scroll_y y)
    mod width s.

Definition spec_source_index (x y : Z) : Z :=
  (spec_virtual_y y / 8) * width s + (x + x_offset s) mod width s.

Definition spec_bit (x y : Z) : bool :=
  Z.testbit (default 0 (pixels s !! Z.to_nat (spec_source_index x y)))
            (spec_virtual_y y mod 8).

Definition spec_lit (x y : Z) : bool := xorb (spec_bit x y) (invert s).

Definition spec_output_pixel (x y : Z) : Z :=
  if spec_lit x y && display_on s then 0xFFFFFFFF else 0.

(** The frame as a function of the byte offset in the pixel sink. *)
Definition spec_frame_byte (k : Z) : Z :=
  default 0 (uint32_bytes (spec_output_pixel ((k / 4) mod width s) (k / 4 / width s))
               !! Z.to_nat (k mod 4)).
End SpecTransform.

(** Reading a 32-bit value back from the pixel sink. *)
Definition buffer_read32 (fb : gmap Z Z) (offset : Z) : option Z :=
  match fb !! offset, fb !! (offset + 1), fb !! (offset + 2), fb !! (offset + 3) with
  | Some b0, Some b1, Some b2, Some b3 =>
      Some (b0 + 256 * b1 + 65536 * b2 + 16777216 * b3)
  | _, _, _, _ => None
  end.

(** Size of the pixel sink of the 128 x 128 panel, in bytes. *)
Definition FRAME_BYTES : Z := 128 * 128 * 4.

(** The part of the reference frame present in the pixel sink: the renderer
    writes the frame in increasing byte offsets. *)
Definition frame_prefix (s : sh1107_state_t) (n : Z) (fb : gmap Z Z) : Prop :=
  forall k, 0 <= k < n -> fb !! k = Some (spec_frame_byte s k).

(** ** Opcode classes of the interpreter

    The [case] labels and the range tests of [sh1107_process_command],
    grouped as the specification names them. *)

(** The labels whose branch changes a register (or does nothing: no-op). *)
Definition implemented_opcode (c : Z) : bool :=
  (c =? CMD_SET_CONTRAST) || (c =? CMD_DISPLAY_OFF) || (c =? CMD_DISPLAY_ON)
  || (c =? CMD_NORMAL_DISPLAY) || (c =? CMD_INVERT_DISPLAY) || (c =? CMD_NOP)
  || (c =? CMD_SET_PAGE_ADDR_MODE) || (c =? CMD_SET_VERTICAL_ADDR_MODE)
  || (c =? CMD_SET_DISPLAY_CLOCK_DIV) || (c =? CMD_SET_PRECHARGE)
  || (c =? CMD_COM_SCAN_INC) || (c =? CMD_COM_SCAN_DEC)
  || (c =? CMD_SEG_REMAP_OFF) || (c =? CMD_SEG_REMAP_ON)
  || (c =? CMD_SET_DISP_START_LINE).

(** The labels grouped under the comment "not implemented". *)
Definition not_implemented_opcode (c : Z) : bool :=
  (c =? CMD_SET_DISPLAY_OFFSET) || (c =? CMD_SET_MULTIPLEX)
  || (c =? CMD_SET_VCOM_DESELECT) || (c =? CMD_SET_COM_PINS)
  || (c =? CMD_DISPLAY_ALL_ON) || (c =? CMD_DISPLAY_ALL_ON_RESUME).

(** The three range tests of the [default] branch. *)
Definition column_low_opcode (c : Z) : bool := c <=? 0x0f.
Definition column_high_opcode (c : Z) : bool := (0x10 <=? c) && (c <=? 0x17).
Definition page_range_opcode (c : Z) : bool := (0xb0 <=? c) && (c <=? 0xc0).

Definition column_address_opcode (c : Z) : bool :=
  column_low_opcode c || column_high_opcode c.

(** Every opcode that does not reach the [printf]. *)
Definition recognized_opcode (c : Z) : bool :=
  implemented_opcode c || not_implemented_opcode c
  || column_low_opcode c || column_high_opcode c || page_range_opcode c.

(** The opcodes whose branch sets [auto_update]. *)
Definition redraw_opcode (c : Z) : bool :=
  (c =? CMD_SET_CONTRAST) || (c =? CMD_NORMAL_DISPLAY) || (c =? CMD_INVERT_DISPLAY)
  || (c =? CMD_COM_SCAN_INC) || (c =? CMD_COM_SCAN_DEC)
  || (c =? CMD_SEG_REMAP_OFF) || (c =? CMD_SEG_REMAP_ON)
  || (c =? CMD_SET_DISP_START_LINE)
  || ((0xb0 <=? c) && (c <=? 0xbf)).

(** The opcodes the specification expects to mark the redraw flag: the
    recognized ones but for the column-address branches and the
    not-implemented set. *)
Definition spec_redraw_opcode (c : Z) : bool :=
  recognized_opcode c && negb (column_address_opcode c)
  && negb (not_implemented_opcode c).

(** The parameter counts in the words of the specification: a mapping from
    opcode to declared parameter count, 0 when the opcode is absent. *)
Definition spec_parameter_count (c : Z) : Z :=
  if (c =? CMD_SET_CONTRAST) || (c =? CMD_SET_MULTIPLEX) || (c =? CMD_DCDC)
     || (c =? CMD_SET_DISPLAY_OFFSET) || (c =? CMD_SET_COM_PINS)
     || (c =? CMD_SET_DISPLAY_CLOCK_DIV) || (c =? CMD_SET_PRECHARGE)
     || (c =? CMD_SET_VCOM_DESELECT) || (c =? CMD_SET_DISP_START_LINE)
  then 1 else 0.

(** The table entry of an opcode agrees with the declared count. *)
Definition table_agrees (z : Z) : bool :=
  match multi_byte_commands !! Z.to_nat z with
  | Some n => n =? spec_parameter_count z
  | None => false
  end.

(** The command buffer as [sh1107_i2c_write] hands it to the interpreter
    once the only byte of a one-byte command has arrived. *)
Definition assembled (opcode : Z) (s : sh1107_state_t) : sh1107_state_t :=
  set_current_command_index 1
    (set_current_command_length 1
       (set_current_command (<[0%nat := opcode]> (current_command s)) s)).

(** ** Invariants and register views *)

(** The addressing cursor stays inside the display RAM. *)
Definition cursor_invariant (s : sh1107_state_t) : Prop :=
  0 <= active_column s < width s /\ 0 <= active_page s < 16.

(** The command assembler stays inside its 8-byte buffer. *)
Definition command_invariant (s : sh1107_state_t) : Prop :=
  0 <= current_command_index s < current_command_length s
  /\ current_command_length s <= COMMAND_SIZE.

Definition device_invariant (s : sh1107_state_t) : Prop :=
  cursor_invariant s /\ command_invariant s.

(** The configuration registers other than the addressing cursor. *)
Definition configuration (s : sh1107_state_t)
    : Z * bool * bool * bool * bool * Z * Z * Z * Z * Z * Z * Z * Z * Z :=
  (contrast s, invert s, reverse_rows s, segment_remap s, display_on s,
   memory_mode s, clock_divider s, multiplex_ratio s, phase1 s, phase2 s,
   start_line s, x_offset s, width s, height s).

(** The registers and the memory the renderer reads, but for [invert]. *)
Definition render_inputs (s : sh1107_state_t)
    : Z * Z * Z * list Z * Z * bool * bool :=
  (width s, height s, x_offset s, pixels s, start_line s, reverse_rows s, display_on s).

(** The addressing cursor. *)
Definition cursor (s : sh1107_state_t) : Z * Z := (active_column s, active_page s).

(** Bytes the bus can deliver. *)
Definition wf_event (e : host_event) : Prop :=
  match e with
  | I2cWrite value => 0 <= value < 256
  | _ => True
  end.

(** Bounds of the two column-address updates, as computable tests over
    all byte values. *)
Definition column_low_ok (a : Z) : bool :=
  forallb (fun c => in_range 0 128 (u8 (Z.lor (Z.land a 112) c)))
          (map Z.of_nat (seq 0 16)).

Definition column_high_ok (a : Z) : bool :=
  forallb (fun c => in_range 0 128 (u8 (Z.lor (Z.land a 15) (Z.shiftl (Z.land c 7) 4))))
          (map Z.of_nat (seq 0 256)).

(** The assembler is either at the start of a command or inside one. *)
Definition assembler_invariant (s : sh1107_state_t) : Prop :=
  current_command_index s = 0 \/ command_invariant s.

(** ** Example states *)

(** The state a byte sequence leaves the freshly built chip in (the fresh
    chip itself if the sequence runs into undefined behaviour). *)
Definition chip_after (es : list host_event) : sh1107_state_t :=
  default fresh_chip (run fresh_chip es).

(** Display on, then the data byte [0xff] at page 0, column 0. *)
Definition lit_chip : sh1107_state_t :=
  chip_after [I2cConnect; I2cWrite 0x80; I2cWrite CMD_DISPLAY_ON;
              I2cWrite 0x40; I2cWrite 0xff].

(** Remapped columns, vertical mode, cursor on the last page and column. *)
Definition remapped_chip : sh1107_state_t :=
  chip_after [I2cConnect; I2cWrite 0x00; I2cWrite CMD_SEG_REMAP_ON;
              I2cWrite CMD_SET_VERTICAL_ADDR_MODE; I2cWrite 0xbf;
              I2cWrite 0x0f; I2cWrite 0x17; I2cConnect; I2cWrite 0x40].

(** Page 5 selected, rows reversed; the assembler waits for an opcode. *)
Definition page5_chip : sh1107_state_t :=
  chip_after [I2cConnect; I2cWrite 0x00; I2cWrite 0xb5; I2cWrite CMD_COM_SCAN_DEC].

(** Display on and rendered once; the assembler waits for an opcode. *)
Definition shown_chip : sh1107_state_t :=
  chip_after [I2cConnect; I2cWrite 0x00; I2cWrite CMD_DISPLAY_ON; TimerFire].


(** Display on, one data byte written, back in command mode. *)
Definition normal_chip : sh1107_state_t :=
  chip_after [I2cConnect; I2cWrite 0x00; I2cWrite CMD_DISPLAY_ON; I2cConnect;
              I2cWrite 0x40; I2cWrite 0x5a; I2cConnect; I2cWrite 0x00].

(** ** Views, bursts and further example states *)

(** Everything of the device a bus transaction or a render can observe,
    but for the protocol and assembler state. *)
Definition device_view (s : sh1107_state_t) :=
  (configuration s, cursor s, pixels s, framebuffer s, update_timer s, updated s,
   console s).

(** The command assembler. *)
Definition assembler_view (s : sh1107_state_t) : Z * Z * list Z :=
  (current_command_index s, current_command_length s, current_command s).

(** The byte receiver. *)
Definition protocol_view (s : sh1107_state_t) : bool * bool * bool :=
  (control_byte s, continuous_mode s, command_mode s).

(** The command buffer as [sh1107_i2c_write] hands it to the interpreter
    once both bytes of a two-byte command have arrived. *)
Definition assembled2 (opcode parameter : Z) (s : sh1107_state_t) : sh1107_state_t :=
  set_current_command_index 2
    (set_current_command_length 2
       (set_current_command
          (<[1%nat := parameter]> (<[0%nat := opcode]> (current_command s))) s)).

(** The state between the two bytes of a two-byte command. *)
Definition half_assembled (opcode : Z) (s : sh1107_state_t) : sh1107_state_t :=
  set_current_command_index 1
    (set_current_command_length 2
       (set_current_command (<[0%nat := opcode]> (current_command s)) s)).

(** The two column-address updates of the interpreter, on the column
    register alone. *)
Definition column_after_low (column opcode : Z) : Z :=
  u8 (Z.lor (Z.land column 0x70) opcode).

Definition column_after_high (column opcode : Z) : Z :=
  u8 (Z.lor (Z.land column 0x0f) (Z.shiftl (Z.land opcode 0x07) 4)).

(** Both orders of the two updates reach the target column, tested over
    every previous column and every target. *)
Definition column_pair_ok (column : Z) : bool :=
  forallb (fun target =>
             let low := target mod 16 in
             let high := 0x10 + target / 16 in
             (column_after_high (column_after_low column low) high =? target)
             && (column_after_low (column_after_high column high) low =? target))
          (map Z.of_nat (seq 0 128)).

(** A chip in the middle of a continuous data transfer: well formed, on
    the 128 x 128 panel, cursor in range, data mode, no control byte
    expected. *)
Definition data_burst_ready (s : sh1107_state_t) : Prop :=
  wf_state s /\ panel_128 s /\ cursor_invariant s
  /\ protocol_view s = (false, true, false).

(** Number of times the host fires the render timer in a run. *)
Fixpoint timer_fires (es : list host_event) : Z :=
  match es with
  | [] => 0
  | TimerFire :: es' => 1 + timer_fires es'
  | _ :: es' => timer_fires es'
  end.

(** Timer requests made so far, less the one still pending. *)
Definition settled_requests (s : sh1107_state_t) : Z :=
  Z.of_nat (length (update_timer s)) - Z.b2z (updated s).

(** The opcodes whose branch changes a register the renderer reads. *)
Definition frame_opcode (c : Z) : bool :=
  (c =? CMD_DISPLAY_OFF) || (c =? CMD_DISPLAY_ON)
  || (c =? CMD_NORMAL_DISPLAY) || (c =? CMD_INVERT_DISPLAY)
  || (c =? CMD_COM_SCAN_INC) || (c =? CMD_COM_SCAN_DEC)
  || (c =? CMD_SET_DISP_START_LINE).

(** Just connected: a control byte is expected. *)
Definition connected_chip : sh1107_state_t := chip_after [I2cConnect].

(** Continuous data mode, page addressing, cursor at the origin. *)
Definition data_chip : sh1107_state_t := chip_after [I2cConnect; I2cWrite 0x40].

(** Single-shot data mode. *)
Definition single_shot_chip : sh1107_state_t := chip_after [I2cConnect; I2cWrite 0xC0].

(** Display on, rows reversed, scrolled by 40 lines, one data byte. *)
Definition scrolled_chip : sh1107_state_t :=
  chip_after [I2cConnect; I2cWrite 0x00; I2cWrite CMD_DISPLAY_ON;
              I2cWrite CMD_COM_SCAN_DEC; I2cWrite CMD_SET_DISP_START_LINE; I2cWrite 0x28;
              I2cConnect; I2cWrite 0x40; I2cWrite 0x81].

(** Bus bytes that index the parameter-count table inside its bounds. *)
Definition table_event (e : host_event) : Prop :=
  match e with
  | I2cWrite value => 0 <= value <= 0xdc
  | _ => True
  end.

(** * Properties *)

(** ** Case analysis on the state and on integer comparisons *)

Ltac destruct_state s :=
  destruct s as [w h xo px fb tm don upd con inv rr sr cd mr p1 p2 ac ap mm sl
                 cb cm cmd ci cl cc co].

Ltac case_compare :=
  match goal with
  | |- context [?a =? ?b] => destruct (Z.eqb_spec a b)
  | |- context [?a <=? ?b] => destruct (Z.leb_spec a b)
  | |- context [?a <? ?b] => destruct (Z.ltb_spec a b)
  | |- context [?a >? ?b] => destruct (Z.gtb_spec a b)
  end.

(** ** Machine arithmetic *)

Lemma u8_small z : 0 <= z < 256 -> u8 z = z.
Proof. intros H. unfold u8. apply Z.mod_small. lia. Qed.

Lemma u32_small z : 0 <= z < 4294967296 -> u32 z = z.
Proof. intros H. unfold u32. apply Z.mod_small. lia. Qed.

Lemma u8_range z : 0 <= u8 z < 256.
Proof. unfold u8. apply Z.mod_pos_bound. lia. Qed.

Lemma truthy_land_bit p k :
  0 <= k -> truthy (Z.land p (Z.shiftl 1 k)) = Z.testbit p k.
Proof.
  intros Hk. unfold truthy.
  rewrite Z.shiftl_1_l.
  destruct (Z.testbit p k) eqn:Hbit.
  - destruct (Z.eqb_spec (Z.land p (2 ^ k)) 0) as [E|E]; [|reflexivity].
    assert (Hb : Z.testbit (Z.land p (2 ^ k)) k = true).
    { rewrite Z.land_spec, Hbit, Z.pow2_bits_true; [reflexivity | lia]. }
    rewrite E, Z.bits_0 in Hb. discriminate.
  - destruct (Z.eqb_spec (Z.land p (2 ^ k)) 0) as [E|E]; [reflexivity|].
    exfalso. apply E. apply Z.bits_inj'. intros n Hn.
    rewrite Z.land_spec, Z.bits_0.
    destruct (Z.eq_dec k n) as [->|Hne].
    + rewrite Hbit. reflexivity.
    + rewrite (Z.pow2_bits_false k n) by lia. apply andb_false_r.
Qed.

Lemma pixValue_xor (b inv : bool) :
  truthy (if b then Z.b2z (negb (truthy (Z.b2z inv))) else Z.b2z inv) = xorb b inv.
Proof. destruct b, inv; reflexivity. Qed.

(** ** Loops *)

Lemma for_u8_invariant {A : Type} (I : Z -> A -> Prop)
    (body : Z -> A -> option A) (bound : Z) :
  0 <= bound <= 255 ->
  (forall i a, 0 <= i < bound -> I i a -> exists a', body i a = Some a' /\ I (i + 1) a') ->
  forall (n : nat) (fuel : nat) (i : Z) (a : A),
    0 <= i -> bound - i = Z.of_nat n -> (n < fuel)%nat -> I i a ->
    exists a', for_u8 fuel bound body i a = Some a' /\ I bound a'.
Proof.
  intros Hb Hstep. induction n as [|n IH]; intros fuel i a Hi Hn Hfuel HI.
  - destruct fuel as [|fuel]; [lia|]. simpl.
    destruct (Z.ltb_spec i bound) as [Hlt|Hge]; [lia|].
    exists a. split; [reflexivity|]. replace bound with i by lia. exact HI.
  - destruct fuel as [|fuel]; [lia|]. simpl.
    destruct (Z.ltb_spec i bound) as [Hlt|Hge]; [|lia].
    destruct (Hstep i a ltac:(lia) HI) as (a' & Hbody & HI').
    rewrite Hbody, u8_small by lia.
    apply IH; [lia | lia | lia | exact HI'].
Qed.

(** ** The pixel sink *)

Lemma buffer_write_lookup_lt fb data : forall offset k,
  k < offset -> buffer_write fb offset data !! k = fb !! k.
Proof.
  revert fb. induction data as [|b data IH]; intros fb offset k Hk; simpl.
  - reflexivity.
  - rewrite IH by lia. apply lookup_insert_ne. lia.
Qed.

Lemma buffer_write_lookup fb data : forall offset (i : nat) b,
  data !! i = Some b ->
  buffer_write fb offset data !! (offset + Z.of_nat i) = Some b.
Proof.
  revert fb. induction data as [|d data IH]; intros fb offset i b Hi; simpl.
  - discriminate.
  - destruct i as [|i]; simpl in Hi.
    + injection Hi as ->. rewrite buffer_write_lookup_lt by lia.
      rewrite Z.add_0_r. apply lookup_insert_eq.
    + replace (offset + Z.of_nat (S i)) with (offset + 1 + Z.of_nat i) by lia.
      apply IH. exact Hi.
Qed.

(** ** The renderer against the reference transform *)

Section RenderRefinement.
Variable s : sh1107_state_t.
Hypothesis Hwf : wf_state s.
Hypothesis Hpanel : panel_128 s.

Lemma render_width_128 : render_width s = 128.
Proof. unfold render_width. destruct Hpanel as [-> _]. reflexivity. Qed.

Lemma render_height_128 : render_height s = 128.
Proof. unfold render_height. destruct Hpanel as [_ ->]. reflexivity. Qed.

Lemma virtual_y_spec y :
  0 <= y < 128 -> virtual_y s y = spec_virtual_y s y.
Proof.
  intros Hy. unfold virtual_y, spec_virtual_y, scroll_y, spec_scroll_y.
  rewrite render_width_128, render_height_128.
  destruct Hpanel as [-> ->].
  pose proof (wf_start_line s Hwf) as Hsl.
  rewrite (u32_small (y + start_line s)) by lia.
  destruct (reverse_rows s); [|reflexivity].
  unfold u32. apply Z.mod_mod_divide.
  exists 33554432. reflexivity.
Qed.

Lemma virtual_y_range y : 0 <= y < 128 -> 0 <= virtual_y s y < 128.
Proof.
  intros Hy. unfold virtual_y. rewrite render_width_128.
  apply Z.mod_pos_bound. lia.
Qed.

Lemma pix_index_spec x y :
  0 <= x < 128 -> 0 <= y < 128 -> pix_index s x y = spec_source_index s x y.
Proof.
  intros Hx Hy. unfold pix_index, spec_source_index.
  rewrite <- virtual_y_spec by exact Hy.
  pose proof (virtual_y_range y Hy) as Hv.
  rewrite render_width_128. destruct Hpanel as [-> _].
  pose proof (wf_x_offset s Hwf) as Hxo.
  rewrite Z.rem_mod_nonneg by lia.
  replace (x + x_offset s + 128) with (x + x_offset s + 1 * 128) by lia.
  rewrite Z_mod_plus_full.
  pose proof (Z.mod_pos_bound (x + x_offset s) 128 ltac:(lia)) as Hm.
  apply u32_small.
  assert (0 <= virtual_y s y / 8 < 16) by (split; [apply Z.div_pos; lia | apply Z.div_lt_upper_bound; lia]).
  lia.
Qed.

Lemma pix_index_range x y :
  0 <= x < 128 -> 0 <= y < 128 -> 0 <= pix_index s x y < PIXELS_SIZE.
Proof.
  intros Hx Hy. rewrite pix_index_spec by assumption.
  unfold spec_source_index. rewrite <- virtual_y_spec by exact Hy.
  pose proof (virtual_y_range y Hy) as Hv.
  destruct Hpanel as [-> _].
  pose proof (Z.mod_pos_bound (x + x_offset s) 128 ltac:(lia)) as Hm.
  assert (0 <= virtual_y s y / 8 < 16) by (split; [apply Z.div_pos; lia | apply Z.div_lt_upper_bound; lia]).
  change PIXELS_SIZE with 2048. lia.
Qed.

Lemma data_offset_spec x y :
  0 <= x < 128 -> 0 <= y < 128 -> data_offset s x y = (y * width s + x) * 4.
Proof.
  intros Hx Hy. unfold data_offset. rewrite render_width_128.
  destruct Hpanel as [-> _]. apply u32_small. lia.
Qed.

(** One pass of the inner loop body writes the reference pixel. *)
Lemma update_pixel_spec x y fb :
  0 <= x < 128 -> 0 <= y < 128 ->
  update_pixel s y x fb =
    Some (buffer_write fb ((y * width s + x) * 4)
            (uint32_bytes (spec_output_pixel s x y))).
Proof.
  intros Hx Hy. unfold update_pixel.
  rewrite render_width_128. simpl (128 =? 0).  cbv iota.
  pose proof (pix_index_range x y Hx Hy) as Hr.
  destruct (pixels s !! Z.to_nat (pix_index s x y)) as [p|] eqn:Hp.
  - rewrite data_offset_spec by assumption.
    unfold spec_output_pixel, spec_lit, spec_bit.
    rewrite <- pix_index_spec, Hp by assumption. simpl (default 0 (Some p)).
    rewrite <- virtual_y_spec by assumption.
    unfold render_invert.
    rewrite truthy_land_bit by (apply Z.mod_pos_bound; lia).
    rewrite pixValue_xor. reflexivity.
  - apply lookup_ge_None in Hp. rewrite (wf_pixels s Hwf) in Hp. lia.
Qed.

Lemma spec_frame_byte_pixel x y (i : nat) :
  0 <= x < 128 -> 0 <= y < 128 -> (i < 4)%nat ->
  uint32_bytes (spec_output_pixel s x y) !! i
    = Some (spec_frame_byte s ((y * width s + x) * 4 + Z.of_nat i)).
Proof.
  intros Hx Hy Hi. unfold spec_frame_byte. destruct Hpanel as [Hw _]. rewrite Hw.
  assert (Hq : ((y * 128 + x) * 4 + Z.of_nat i) / 4 = y * 128 + x).
  { symmetry. apply (Z.div_unique _ 4 _ (Z.of_nat i)); lia. }
  assert (Hm : ((y * 128 + x) * 4 + Z.of_nat i) mod 4 = Z.of_nat i).
  { symmetry. apply (Z.mod_unique _ 4 (y * 128 + x) _); lia. }
  rewrite Hq, Hm, Nat2Z.id.
  replace ((y * 128 + x) mod 128) with x
    by (apply (Z.mod_unique _ 128 y x); lia).
  replace ((y * 128 + x) / 128) with y
    by (apply (Z.div_unique _ 128 y x); lia).
  destruct i as [|[|[|[|i]]]]; try lia; reflexivity.
Qed.

Lemma update_pixel_prefix x y fb :
  0 <= x < 128 -> 0 <= y < 128 ->
  frame_prefix s ((y * 128 + x) * 4) fb ->
  exists fb', update_pixel s y x fb = Some fb'
              /\ frame_prefix s ((y * 128 + (x + 1)) * 4) fb'.
Proof.
  intros Hx Hy Hfb. rewrite update_pixel_spec by assumption.
  eexists. split; [reflexivity|].
  destruct Hpanel as [Hw _]. intros k Hk.
  destruct (Z_lt_ge_dec k ((y * 128 + x) * 4)) as [Hlt|Hge].
  - rewrite Hw, buffer_write_lookup_lt by lia. apply Hfb. lia.
  - replace k with ((y * width s + x) * 4 + Z.of_nat (Z.to_nat (k - (y * 128 + x) * 4)))
      by (rewrite Hw; lia).
    apply buffer_write_lookup. apply spec_frame_byte_pixel; [assumption..|lia].
Qed.

Lemma update_row_prefix y fb :
  0 <= y < 128 ->
  frame_prefix s (y * 128 * 4) fb ->
  exists fb', update_row s y fb = Some fb' /\ frame_prefix s ((y + 1) * 128 * 4) fb'.
Proof.
  intros Hy Hfb. unfold update_row. rewrite render_width_128.
  destruct (for_u8_invariant
              (fun x fb => frame_prefix s ((y * 128 + x) * 4) fb)
              (update_pixel s y) 128 ltac:(lia)
              (fun x fb Hx H => update_pixel_prefix x y fb Hx Hy H)
              128%nat U8_LOOP_FUEL 0 fb) as (fb' & Hrun & Hfb').
  - lia.
  - reflexivity.
  - unfold U8_LOOP_FUEL. lia.
  - intros k Hk. apply Hfb. lia.
  - exists fb'. split; [exact Hrun|]. intros k Hk. apply Hfb'. lia.
Qed.

(** The two loops terminate within their fuel, touch no byte outside
    the array and leave the reference frame in the pixel sink. *)
Lemma update_rows_frame fb :
  exists fb', update_rows s fb = Some fb' /\ frame_prefix s FRAME_BYTES fb'.
Proof.
  unfold update_rows. rewrite render_height_128.
  destruct (for_u8_invariant
              (fun y fb => frame_prefix s (y * 128 * 4) fb)
              (update_row s) 128 ltac:(lia)
              (fun y fb Hy H => update_row_prefix y fb Hy H)
              128%nat U8_LOOP_FUEL 0 fb) as (fb' & Hrun & Hfb').
  - lia.
  - reflexivity.
  - unfold U8_LOOP_FUEL. lia.
  - intros k Hk. lia.
  - exists fb'. split; [exact Hrun|]. exact Hfb'.
Qed.

Lemma sh1107_update_buffer_frame :
  exists fb',
    sh1107_update_buffer s = Some (set_updated false (set_framebuffer fb' s))
    /\ frame_prefix s FRAME_BYTES fb'.
Proof.
  destruct (update_rows_frame (framebuffer s)) as (fb' & Hrun & Hfb').
  exists fb'. unfold sh1107_update_buffer. rewrite Hrun. split; [reflexivity | exact Hfb'].
Qed.
End RenderRefinement.

(** ** Example states are well formed *)

(** Evaluate the fields of closed states in the goal. *)
Ltac compute_field :=
  repeat match goal with
         | |- context [?f ?st] =>
             match type of st with
             | sh1107_state_t =>
                 let v := eval vm_compute in (f st) in
                 progress change (f st) with v
             end
         end.

Lemma in_range_spec lo hi v : in_range lo hi v = true <-> lo <= v < hi.
Proof. unfold in_range. rewrite andb_true_iff, Z.leb_le, Z.ltb_lt. reflexivity. Qed.

Lemma wf_stateb_sound s : wf_stateb s = true -> wf_state s.
Proof.
  unfold wf_stateb. rewrite !andb_true_iff, !in_range_spec, !Nat.eqb_eq.
  intros [[[[[[[H1 H2] H3] H4] H5] H6] H7] H8].
  constructor; try assumption.
  apply Forall_forall. intros b Hb.
  rewrite forallb_forall in H3. apply in_range_spec, H3.
  apply list_elem_of_In. exact Hb.
Qed.

(** Well-formedness of a closed state, by evaluation. *)
Ltac closed_wf := apply wf_stateb_sound; vm_compute; reflexivity.

Lemma chip_init_wf memory pw ph :
  wf_state memory -> wf_state (chip_init memory pw ph).
Proof.
  intros [H1 H2 H3 H4 H5 H6 H7 H8]. destruct_state memory.
  constructor; simpl in *; try assumption; lia.
Qed.

Lemma blank_memory_wf : wf_state blank_memory.
Proof. closed_wf. Qed.

Lemma lit_chip_wf : wf_state lit_chip.
Proof. closed_wf. Qed.

Lemma lit_chip_panel : panel_128 lit_chip.
Proof. split; vm_compute; reflexivity. Qed.

(** ** C1: the frame the renderer leaves *)

Lemma spec_output_pixel_cases s x y :
  spec_output_pixel s x y = 0xFFFFFFFF \/ spec_output_pixel s x y = 0.
Proof. unfold spec_output_pixel. destruct (spec_lit s x y && display_on s); auto. Qed.

Lemma frame_prefix_read32 s fb x y :
  panel_128 s -> 0 <= x < 128 -> 0 <= y < 128 ->
  frame_prefix s FRAME_BYTES fb ->
  buffer_read32 fb ((y * width s + x) * 4) = Some (spec_output_pixel s x y).
Proof.
  intros Hp Hx Hy Hfb. unfold buffer_read32.
  assert (Hb : forall i : nat, (i < 4)%nat ->
             fb !! ((y * width s + x) * 4 + Z.of_nat i)
             = uint32_bytes (spec_output_pixel s x y) !! i).
  { intros i Hi. rewrite (spec_frame_byte_pixel s Hp x y i) by assumption.
    apply Hfb. destruct Hp as [-> _]. unfold FRAME_BYTES. lia. }
  pose proof (Hb 0%nat ltac:(lia)) as H0. rewrite Z.add_0_r in H0.
  pose proof (Hb 1%nat ltac:(lia)) as H1. change (Z.of_nat 1) with 1 in H1.
  pose proof (Hb 2%nat ltac:(lia)) as H2. change (Z.of_nat 2) with 2 in H2.
  pose proof (Hb 3%nat ltac:(lia)) as H3. change (Z.of_nat 3) with 3 in H3.
  rewrite H0, H1, H2, H3.
  destruct (spec_output_pixel_cases s x y) as [-> | ->]; reflexivity.
Qed.

(** C1. For every output coordinate (x, y) of the 128 x 128 panel the
    renderer returns and leaves, at byte offset (y * width + x) * 4 of the
    pixel sink, the 32-bit value of the reference transform of the
    specification: the row is scrolled by start_line, mirrored when
    reverse_rows is set and reduced modulo width (not height); the source
    bit is bit (virtual_y mod 8) of the display RAM byte at
    (virtual_y / 8) * width + (x + x_offset) mod width; it is xor-ed with
    invert, and-ed with display_on and shown as 0xFFFFFFFF or 0. *)
Theorem renderer_writes_reference_pixel (s : sh1107_state_t) (x y : Z) :
  wf_state s -> panel_128 s -> 0 <= x < 128 -> 0 <= y < 128 ->
  exists s',
    sh1107_update_buffer s = Some s'
    /\ buffer_read32 (framebuffer s') ((y * width s + x) * 4)
        = Some (spec_output_pixel s x y)
    /\ (spec_output_pixel s x y = 0xFFFFFFFF \/ spec_output_pixel s x y = 0).
Proof.
  intros Hwf Hp Hx Hy.
  destruct (sh1107_update_buffer_frame s Hwf Hp) as (fb' & Hrun & Hfb').
  eexists. split; [exact Hrun|]. split.
  - replace (framebuffer (set_updated false (set_framebuffer fb' s))) with fb'
      by (destruct s; reflexivity).
    apply frame_prefix_read32; assumption.
  - apply spec_output_pixel_cases.
Qed.

Lemma renderer_writes_reference_pixel_witness :
  exists s',
    sh1107_update_buffer lit_chip = Some s'
    /\ buffer_read32 (framebuffer s') ((3 * width lit_chip + 32) * 4)
        = Some (spec_output_pixel lit_chip 32 3)
    /\ (spec_output_pixel lit_chip 32 3 = 0xFFFFFFFF \/ spec_output_pixel lit_chip 32 3 = 0).
Proof.
  apply (renderer_writes_reference_pixel lit_chip 32 3 lit_chip_wf lit_chip_panel); lia.
Defined.

(** The pixel of the witness is a lit one: column 32 of the panel shows
    column 0 of the display RAM. *)
Example lit_chip_pixel : spec_output_pixel lit_chip 32 3 = 0xFFFFFFFF.
Proof. vm_compute. reflexivity. Qed.

(** ** C10: the renderer reads inside the display RAM *)

(** The unsigned subtraction does wrap: row 127 scrolled by 255. *)
Example reversed_row_wraps :
  let s := set_start_line 255 (set_reverse_rows true lit_chip) in
  u32 (render_height s - 1 - scroll_y s 127) = 4294967041 /\ virtual_y s 127 = 1.
Proof. vm_compute. split; reflexivity. Qed.

(** C10. With x_offset = 96 and width = height = 128, for any start_line in
    [0, 255] and any reverse_rows, invert and display_on, the index
    (virtual_y / 8) * width + (x + x_offset + width) % width the renderer
    computes for a coordinate of the panel is below 2048, the size of the
    pixels array, also when height - 1 - scroll_y wraps around as an
    unsigned value; the array read is therefore defined. *)
Theorem renderer_index_in_bounds (s : sh1107_state_t) (x y : Z) :
  panel_128 s -> x_offset s = 96 -> 0 <= start_line s <= 255 ->
  length (pixels s) = Z.to_nat PIXELS_SIZE ->
  0 <= x < 128 -> 0 <= y < 128 ->
  0 <= pix_index s x y < 2048
  /\ is_Some (pixels s !! Z.to_nat (pix_index s x y)).
Proof.
  intros Hp Hxo Hsl Hlen Hx Hy.
  assert (Hr : 0 <= pix_index s x y < 2048).
  { unfold pix_index. rewrite (render_width_128 s Hp), Hxo.
    pose proof (virtual_y_range s Hp y Hy) as Hv.
    rewrite Z.rem_mod_nonneg by lia.
    pose proof (Z.mod_pos_bound (x + 96 + 128) 128 ltac:(lia)) as Hm.
    assert (0 <= virtual_y s y / 8 < 16)
      by (split; [apply Z.div_pos; lia | apply Z.div_lt_upper_bound; lia]).
    rewrite u32_small by lia. lia. }
  split; [exact Hr|].
  apply lookup_lt_is_Some. rewrite Hlen. change PIXELS_SIZE with 2048. lia.
Qed.

Lemma renderer_index_in_bounds_witness :
  0 <= pix_index lit_chip 127 127 < 2048
  /\ is_Some (pixels lit_chip !! Z.to_nat (pix_index lit_chip 127 127)).
Proof.
  apply (renderer_index_in_bounds lit_chip 127 127 lit_chip_panel).
  - vm_compute. reflexivity.
  - compute_field. lia.
  - apply (wf_pixels _ lit_chip_wf).
  - lia.
  - lia.
Defined.

(** ** C2: the data writer *)

Lemma data_target_spec s :
  wf_state s -> width s <= 128 -> active_column s < width s -> active_page s < 16 ->
  data_target s
  = active_page s * width s
    + (if segment_remap s then width s - 1 - active_column s else active_column s)
  /\ 0 <= data_target s < 2048.
Proof.
  intros Hwf Hw Hc Hp.
  pose proof (wf_active_column s Hwf) as Hc0.
  pose proof (wf_active_page s Hwf) as Hp0.
  unfold data_target, data_column.
  destruct (segment_remap s); simpl negb; cbv iota.
  - rewrite (u32_small (width s - 1 - active_column s)) by lia.
    rewrite u32_small by nia. split; [reflexivity | nia].
  - rewrite u32_small by nia. split; [reflexivity | nia].
Qed.

Lemma wrap_at_width c w :
  0 <= c < w -> (c + 1) mod w = if w <=? c + 1 then 0 else c + 1.
Proof.
  intros H. destruct (Z.leb_spec w (c + 1)).
  - replace (c + 1) with w by lia. apply Z_mod_same_full.
  - apply Z.mod_small. lia.
Qed.

Lemma advance_address_cursor s :
  0 <= active_column s < width s -> width s <= 128 -> 0 <= active_page s < 16 ->
  let s' := advance_address s in
  pixels s' = pixels s
  /\ (memory_mode s = CMD_SET_PAGE_ADDR_MODE ->
        active_column s' = (active_column s + 1) mod width s
        /\ active_page s' = active_page s)
  /\ (memory_mode s <> CMD_SET_PAGE_ADDR_MODE ->
        active_page s' = (active_page s + 1) mod 16
        /\ active_column s'
           = if active_page s + 1 >? 15 then (active_column s + 1) mod width s
             else active_column s).
Proof.
  intros Hc Hw Hp. destruct_state s. simpl in *.
  unfold advance_address, next_column. simpl.
  rewrite (wrap_at_width ac w Hc).
  rewrite !u8_small by lia.
  replace ((ap + 1) mod 16) with (if 16 <=? ap + 1 then 0 else ap + 1)
    by (case_compare; [replace (ap + 1) with 16 by lia; reflexivity
                      | symmetry; apply Z.mod_small; lia]).
  repeat case_compare; simpl; repeat split; intros;
    try reflexivity; try lia; try contradiction.
Qed.

Lemma schedule_update_keeps s :
  pixels (sh1107_schedule_update s) = pixels s
  /\ cursor (sh1107_schedule_update s) = cursor s
  /\ configuration (sh1107_schedule_update s) = configuration s.
Proof.
  unfold sh1107_schedule_update. destruct s as [? ? ? ? ? ? ? u]; destruct u;
    repeat split; reflexivity.
Qed.

(** C2. A data byte written with active_column < width and active_page < 16
    is stored whole at cell active_page * width + effective_column of the
    display RAM (effective_column = width - 1 - active_column under
    segment remap, active_column otherwise) and no other cell changes; in
    page mode active_column then advances modulo width and active_page is
    kept; in vertical mode and for every other memory_mode active_page
    advances modulo 16 and, when it leaves 15, active_column advances
    modulo width. *)
Theorem data_writer_stores_and_advances (s : sh1107_state_t) (value : Z) :
  wf_state s -> width s <= 128 ->
  active_column s < width s -> active_page s < 16 ->
  let effective_column :=
    if segment_remap s then width s - 1 - active_column s else active_column s in
  let cell := Z.to_nat (active_page s * width s + effective_column) in
  exists s',
    sh1107_process_data s value = Some s'
    /\ pixels s' !! cell = Some value
    /\ (forall j, j <> cell -> pixels s' !! j = pixels s !! j)
    /\ (memory_mode s = CMD_SET_PAGE_ADDR_MODE ->
        active_column s' = (active_column s + 1) mod width s
        /\ active_page s' = active_page s)
    /\ (memory_mode s <> CMD_SET_PAGE_ADDR_MODE ->
        active_page s' = (active_page s + 1) mod 16
        /\ active_column s'
           = if active_page s + 1 >? 15 then (active_column s + 1) mod width s
             else active_column s).
Proof.
  intros Hwf Hw Hc Hp effective_column cell.
  destruct (data_target_spec s Hwf Hw Hc Hp) as [Ht Hr].
  pose proof (wf_active_column s Hwf) as Hc0.
  pose proof (wf_active_page s Hwf) as Hp0.
  pose proof (wf_pixels s Hwf) as Hlen. change PIXELS_SIZE with 2048 in Hlen.
  unfold sh1107_process_data.
  destruct (pixels s !! Z.to_nat (data_target s)) as [old|] eqn:Hold;
    [| apply lookup_ge_None in Hold; lia].
  fold effective_column in Ht. rewrite Ht in *. fold cell in Hr |- *.
  set (s1 := set_pixels (<[cell := value]> (pixels s)) s).
  assert (Hs1 : pixels s1 = <[cell := value]> (pixels s)
                /\ active_column s1 = active_column s
                /\ active_page s1 = active_page s
                /\ width s1 = width s /\ memory_mode s1 = memory_mode s)
    by (subst s1; destruct s; repeat split; reflexivity).
  destruct Hs1 as (Hpx & Hac & Hap & Hw1 & Hmm).
  destruct (advance_address_cursor s1) as (Hapx & Hpage & Hvert); [lia..|].
  destruct (schedule_update_keeps (advance_address s1)) as (Hspx & Hscur & _).
  injection Hscur as Hsc Hsp.
  eexists. split; [reflexivity|].
  rewrite Hspx, Hsc, Hsp, Hapx, Hpx.
  rewrite Hmm, Hac, Hap, Hw1 in Hpage, Hvert.
  split; [apply list_lookup_insert_eq; subst cell; lia|].
  split; [intros j Hj; apply list_lookup_insert_ne; congruence|].
  split; assumption.
Qed.

Lemma remapped_chip_wf : wf_state remapped_chip.
Proof. closed_wf. Qed.

Lemma data_writer_stores_and_advances_witness :
  exists s',
    sh1107_process_data remapped_chip 0xaa = Some s'
    /\ pixels s' !! Z.to_nat (15 * 128 + (128 - 1 - 127)) = Some 0xaa
    /\ active_page s' = 0 /\ active_column s' = 0.
Proof.
  destruct (data_writer_stores_and_advances remapped_chip 0xaa remapped_chip_wf)
    as (s' & Hrun & Hcell & _ & _ & Hvert).
  - compute_field. lia.
  - compute_field. lia.
  - compute_field. lia.
  - exists s'. split; [exact Hrun|]. split; [exact Hcell|].
    apply Hvert. compute_field. discriminate.
Defined.

(** ** C3: the parameter-count table *)

Ltac switch_cases := repeat (case_compare; simpl).
Ltac unfold_opcodes :=
  unfold CMD_SET_PAGE_ADDR_MODE, CMD_SET_VERTICAL_ADDR_MODE, CMD_SET_CONTRAST,
    CMD_SEG_REMAP_OFF, CMD_SEG_REMAP_ON, CMD_DISPLAY_ALL_ON_RESUME,
    CMD_DISPLAY_ALL_ON, CMD_NORMAL_DISPLAY, CMD_INVERT_DISPLAY, CMD_SET_MULTIPLEX,
    CMD_DCDC, CMD_DISPLAY_OFF, CMD_DISPLAY_ON, CMD_COM_SCAN_INC, CMD_COM_SCAN_DEC,
    CMD_SET_DISPLAY_OFFSET, CMD_SET_DISPLAY_CLOCK_DIV, CMD_SET_PRECHARGE,
    CMD_SET_COM_PINS, CMD_SET_VCOM_DESELECT, CMD_SET_DISP_START_LINE, CMD_NOP in *.
Ltac unfold_classes :=
  unfold recognized_opcode, implemented_opcode, not_implemented_opcode,
    column_address_opcode, column_low_opcode, column_high_opcode,
    page_range_opcode, redraw_opcode, spec_redraw_opcode in *.

Lemma multi_byte_commands_length : length multi_byte_commands = 221%nat.
Proof. reflexivity. Qed.

Lemma forallb_below (f : Z -> bool) (n : nat) :
  forallb f (map Z.of_nat (seq 0 n)) = true ->
  forall z, 0 <= z < Z.of_nat n -> f z = true.
Proof.
  intros H z Hz. rewrite forallb_forall in H. apply H.
  apply in_map_iff. exists (Z.to_nat z). split; [lia|].
  apply in_seq. lia.
Qed.

Lemma table_agrees_all : forallb table_agrees (map Z.of_nat (seq 0 221)) = true.
Proof. vm_compute. reflexivity. Qed.

Lemma multi_byte_commands_in_table c :
  0 <= c <= 0xdc -> multi_byte_commands !! Z.to_nat c = Some (spec_parameter_count c).
Proof.
  intros Hc.
  pose proof (forallb_below table_agrees 221 table_agrees_all c ltac:(lia)) as H.
  unfold table_agrees in H.
  destruct (multi_byte_commands !! Z.to_nat c) as [n|]; [|discriminate].
  apply Z.eqb_eq in H. congruence.
Qed.

Lemma multi_byte_commands_past_table c :
  0xdc < c -> multi_byte_commands !! Z.to_nat c = None.
Proof. intros Hc. apply lookup_ge_None. rewrite multi_byte_commands_length. lia. Qed.


(** C3. The table has 221 elements, one more than its largest designated
    index 0xdc.  Looking up the parameter count of the first byte of a
    command is therefore not an in-bounds read for every byte value: for
    the no-op opcode 0xe3, which the interpreter has a branch for, the
    read is past the end of the table, no expected length is defined and
    the bus write has no defined result. *)
Theorem parameter_count_lookup_past_table :
  length multi_byte_commands = 221%nat
  /\ multi_byte_commands !! Z.to_nat CMD_NOP = None
  /\ implemented_opcode CMD_NOP = true
  /\ current_command_index shown_chip = 0
  /\ lookup_command_length shown_chip CMD_NOP = None
  /\ sh1107_i2c_write shown_chip CMD_NOP = None.
Proof. vm_compute. repeat split; reflexivity. Qed.

(** ** The interpreter seen from the bus *)

Lemma i2c_write_one_byte_command s b :
  control_byte s = false -> command_mode s = true -> current_command_index s = 0 ->
  length (current_command s) = Z.to_nat COMMAND_SIZE ->
  multi_byte_commands !! Z.to_nat b = Some 0 ->
  sh1107_i2c_write s b = Some (end_of_byte (sh1107_process_command (assembled b s))).
Proof.
  intros Hcb Hcm Hidx Hlen Htab. unfold sh1107_i2c_write, lookup_command_length, assembled.
  rewrite Hcb, Hcm, Hidx.
  destruct (current_command s !! Z.to_nat 0) as [old|] eqn:Hold;
    [| apply lookup_ge_None in Hold; rewrite Hlen in Hold; change COMMAND_SIZE with 8 in Hold; lia].
  destruct_state s. simpl in *. subst. simpl. rewrite Htab. simpl. reflexivity.
Qed.


(** ** C7: unknown opcodes *)

(** C7. When the opcode of a completed command is recognized by no branch
    (no case label, not at most 0x0f, not in [0x10, 0x17], not in
    [0xb0, 0xc0]), interpreting it returns; it prints one diagnostic,
    leaves every configuration register, the addressing cursor and the
    display RAM unchanged, requests no redraw, resets the command index to
    0 and leaves the protocol flags as they were, so that the following
    bytes are processed as after any other command. *)
Theorem unknown_opcode_is_ignored (s : sh1107_state_t) :
  recognized_opcode (command_at s 0) = false ->
  let s' := sh1107_process_command s in
  s' = set_current_command_index 0 (print_unknown (command_at s 0) s)
  /\ console s' = console s ++ [command_at s 0]
  /\ configuration s' = configuration s
  /\ cursor s' = cursor s
  /\ pixels s' = pixels s
  /\ current_command_index s' = 0
  /\ (updated s', update_timer s', framebuffer s') = (updated s, update_timer s, framebuffer s)
  /\ (control_byte s', continuous_mode s', command_mode s')
     = (control_byte s, continuous_mode s, command_mode s).
Proof.
  intros H s'.
  assert (Heq : s' = set_current_command_index 0 (print_unknown (command_at s 0) s)).
  { subst s'. revert H.
    unfold sh1107_process_command, command_switch, print_unknown.
    generalize (command_at s 0) (command_at s 1). intros c p.
    unfold_classes. unfold_opcodes.
    switch_cases; intros Hrec; try discriminate Hrec.
    all: destruct_state s. all: reflexivity. }
  rewrite Heq. destruct_state s. repeat split; reflexivity.
Qed.


Lemma unknown_opcode_is_ignored_witness :
  let s := assembled 0x22 shown_chip in
  let s' := sh1107_process_command s in
  s' = set_current_command_index 0 (print_unknown (command_at s 0) s)
  /\ console s' = console s ++ [command_at s 0]
  /\ configuration s' = configuration s
  /\ cursor s' = cursor s
  /\ pixels s' = pixels s
  /\ current_command_index s' = 0
  /\ (updated s', update_timer s', framebuffer s') = (updated s, update_timer s, framebuffer s)
  /\ (control_byte s', continuous_mode s', command_mode s')
     = (control_byte s, continuous_mode s, command_mode s).
Proof.
  apply (unknown_opcode_is_ignored (assembled 0x22 shown_chip)).
  vm_compute. reflexivity.
Defined.

(** ** C4: page select *)

(** C4 fails at opcode 0xc0: the case label of COM scan increment comes
    first, so the page selected before (5) is kept although 0xc0 & 0x0f is
    0, and a configuration register (reverse_rows) changes. *)
Lemma page_select_0xC0_counterexample :
  let s := assembled 0xC0 page5_chip in
  0xB0 <= command_at s 0 <= 0xC0
  /\ sh1107_i2c_write page5_chip 0xC0 = Some (end_of_byte (sh1107_process_command s))
  /\ active_page (sh1107_process_command s) <> Z.land (command_at s 0) 0x0F
  /\ configuration (sh1107_process_command s) <> configuration s.
Proof.
  split; [vm_compute; split; discriminate|].
  split; [vm_compute; reflexivity|].
  split; vm_compute; discriminate.
Qed.

(** C4 (amended). For every opcode in [0xb0, 0xbf], interpreting that
    one-byte command sets active_page to opcode & 0x0f and changes no other
    configuration register, nor the column cursor or the display RAM.
    Opcode 0xc0 is COM scan increment: it clears reverse_rows, leaves
    active_page unchanged and changes no other configuration register,
    nor the column cursor or the display RAM. *)
Theorem page_select_sets_page (s : sh1107_state_t) :
  0xB0 <= command_at s 0 <= 0xC0 ->
  let opcode := command_at s 0 in
  let s' := sh1107_process_command s in
  (opcode <= 0xBF ->
   active_page s' = Z.land opcode 0x0F
   /\ configuration s' = configuration s)
  /\ (opcode = 0xC0 ->
      active_page s' = active_page s
      /\ reverse_rows s' = false
      /\ configuration s' = configuration (set_reverse_rows false s))
  /\ active_column s' = active_column s
  /\ pixels s' = pixels s
  /\ current_command_index s' = 0.
Proof.
  intros H opcode s'. subst opcode s'. revert H.
  unfold sh1107_process_command, command_switch, print_unknown, sh1107_schedule_update.
  generalize (command_at s 0) (command_at s 1). intros c p Hc.
  unfold_opcodes. destruct_state s.
  assert (Hland : u8 (Z.land c 15) = Z.land c 15).
  { change 15 with (Z.ones 4). rewrite Z.land_ones by lia.
    apply u8_small. pose proof (Z.mod_pos_bound c (2 ^ 4) ltac:(lia)). lia. }
  rewrite Hland.
  repeat (case_compare; simpl; try lia).
  all: destruct don, upd; simpl; repeat split; intros; try reflexivity; lia.
Qed.

Lemma page_select_sets_page_witness :
  (let s := assembled 0xB7 page5_chip in
   let s' := sh1107_process_command s in
   active_page s' = Z.land 0xB7 0x0F
   /\ configuration s' = configuration s
   /\ active_column s' = active_column s
   /\ pixels s' = pixels s
   /\ current_command_index s' = 0)
  /\ (let s := assembled 0xC0 page5_chip in
      let s' := sh1107_process_command s in
      (active_page s, reverse_rows s) = (5, true)
      /\ active_page s' = active_page s
      /\ reverse_rows s' = false
      /\ configuration s' = configuration (set_reverse_rows false s)).
Proof.
  split.
  - destruct (page_select_sets_page (assembled 0xB7 page5_chip))
      as (Hpage & _ & Hcol & Hpx & Hidx); [vm_compute; split; discriminate|].
    destruct Hpage as [Hp Hc]; [vm_compute; discriminate|].
    repeat split; assumption.
  - destruct (page_select_sets_page (assembled 0xC0 page5_chip))
      as (_ & Hscan & _); [vm_compute; split; discriminate|].
    destruct Hscan as (Hp & Hr & Hc); [vm_compute; reflexivity|].
    split; [vm_compute; reflexivity|]. repeat split; assumption.
Defined.

(** ** C5: which commands ask for a redraw *)

Lemma schedule_update_arms s :
  updated s = false ->
  updated (sh1107_schedule_update s) = true
  /\ update_timer (sh1107_schedule_update s) = (16667, false) :: update_timer s.
Proof.
  intros H. unfold sh1107_schedule_update. rewrite H. destruct_state s.
  split; reflexivity.
Qed.

Lemma schedule_update_pending s :
  updated s = true -> sh1107_schedule_update s = s.
Proof. intros H. unfold sh1107_schedule_update. rewrite H. reflexivity. Qed.

(** C5 fails for the addressing-mode command 0x20: it is recognized, it is
    neither a column-address command nor in the not-implemented set, yet
    its branch leaves [auto_update] clear and, with the display on and no
    redraw pending, interpreting it arms no timer. *)
Lemma redraw_flag_0x20_counterexample :
  let s := assembled CMD_SET_PAGE_ADDR_MODE shown_chip in
  spec_redraw_opcode (command_at s 0) = true
  /\ snd (command_switch s) = false
  /\ display_on s = true
  /\ updated s = false
  /\ updated (sh1107_process_command s) = false
  /\ update_timer (sh1107_process_command s) = update_timer s.
Proof. vm_compute. repeat split; reflexivity. Qed.

(** C5 (amended). The interpreter marks the redraw flag exactly for set
    contrast, normal and invert display, COM scan increment and decrement,
    segment remap off and on, set display start line and page select
    0xb0..0xbf; it does not for the column-address branches, the
    not-implemented set, no-op, the two addressing-mode commands, clock
    divider, precharge, display off and on, and unknown opcodes.  When the
    flag is marked and display_on is true the renderer trigger is
    requested: with no redraw pending this arms the timer.  Display off
    and display on request the trigger themselves, whatever display_on is
    or was.  Every other command leaves the pending flag and the timer
    alone. *)
Theorem redraw_flag_and_trigger (s : sh1107_state_t) :
  let c := command_at s 0 in
  let s1 := fst (command_switch s) in
  let auto_update := snd (command_switch s) in
  let s' := sh1107_process_command s in
  auto_update = redraw_opcode c
  /\ s' = set_current_command_index 0
            (if auto_update && display_on s1 then sh1107_schedule_update s1 else s1)
  /\ (c = CMD_DISPLAY_OFF -> s1 = sh1107_schedule_update (set_display_on false s))
  /\ (c = CMD_DISPLAY_ON -> s1 = sh1107_schedule_update (set_display_on true s))
  /\ (redraw_opcode c = true -> display_on s = true -> updated s = false ->
      updated s' = true /\ update_timer s' = (16667, false) :: update_timer s)
  /\ (c = CMD_DISPLAY_OFF \/ c = CMD_DISPLAY_ON -> updated s = false ->
      updated s' = true /\ update_timer s' = (16667, false) :: update_timer s)
  /\ (redraw_opcode c = false -> c <> CMD_DISPLAY_OFF -> c <> CMD_DISPLAY_ON ->
      updated s' = updated s /\ update_timer s' = update_timer s).
Proof.
  intros c s1 auto_update s'. subst s1 auto_update s' c.
  unfold sh1107_process_command, command_switch, print_unknown, sh1107_schedule_update.
  generalize (command_at s 0) (command_at s 1). intros c p.
  unfold_classes. unfold_opcodes. destruct_state s.
  repeat (case_compare; simpl; try lia);
    destruct don, upd; simpl;
    repeat split; intros; try reflexivity; try discriminate; try lia;
    repeat match goal with H : _ \/ _ |- _ => destruct H end; lia.
Qed.


(** ** C6: invariants of the cursor and of the command assembler *)

Lemma command_at_range s i : wf_state s -> 0 <= command_at s i < 256.
Proof.
  intros Hwf. unfold command_at.
  destruct (current_command s !! i) as [b|] eqn:Hb; simpl; [|lia].
  exact (proj1 (Forall_lookup _ _) (wf_command_bytes s Hwf) i b Hb).
Qed.

Lemma column_low_ok_all : forallb column_low_ok (map Z.of_nat (seq 0 256)) = true.
Proof. vm_compute. reflexivity. Qed.

Lemma column_high_ok_all : forallb column_high_ok (map Z.of_nat (seq 0 256)) = true.
Proof. vm_compute. reflexivity. Qed.

Lemma column_low_range a c :
  0 <= a < 256 -> 0 <= c <= 15 -> 0 <= u8 (Z.lor (Z.land a 112) c) < 128.
Proof.
  intros Ha Hc.
  pose proof (forallb_below _ 256 column_low_ok_all a ltac:(lia)) as H.
  pose proof (forallb_below _ 16 H c ltac:(lia)) as H'.
  apply in_range_spec. exact H'.
Qed.

Lemma column_high_range a c :
  0 <= a < 256 -> 0 <= c < 256 ->
  0 <= u8 (Z.lor (Z.land a 15) (Z.shiftl (Z.land c 7) 4)) < 128.
Proof.
  intros Ha Hc.
  pose proof (forallb_below _ 256 column_high_ok_all a ltac:(lia)) as H.
  pose proof (forallb_below _ 256 H c ltac:(lia)) as H'.
  apply in_range_spec. exact H'.
Qed.

Lemma page_bits_range c : 0 <= u8 (Z.land c 15) < 16.
Proof.
  change 15 with (Z.ones 4). rewrite Z.land_ones by lia.
  pose proof (Z.mod_pos_bound c (2 ^ 4) ltac:(lia)).
  rewrite u8_small; lia.
Qed.

Lemma process_command_invariant s :
  wf_state s -> panel_128 s -> cursor_invariant s ->
  let s' := sh1107_process_command s in
  wf_state s' /\ panel_128 s' /\ cursor_invariant s'
  /\ current_command_index s' = 0
  /\ current_command_length s' = current_command_length s.
Proof.
  intros Hwf Hp Hc s'. subst s'.
  pose proof (command_at_range s 0 Hwf) as Hc0.
  pose proof (command_at_range s 1 Hwf) as Hc1.
  revert Hc0 Hc1.
  unfold sh1107_process_command, command_switch, print_unknown, sh1107_schedule_update.
  generalize (command_at s 0) (command_at s 1). intros c p Hc0 Hc1.
  destruct Hwf as [W1 W2 W3 W4 W5 W6 W7 W8]. destruct Hp as [P1 P2]. destruct Hc as [C1 C2].
  pose proof (column_high_range (active_column s) c W6 Hc0) as Hhi.
  pose proof (page_bits_range c) as Hpg.
  assert (Hlo : c <= 15 -> 0 <= u8 (Z.lor (Z.land (active_column s) 112) c) < 128)
    by (intros; apply column_low_range; lia).
  unfold_opcodes. unfold panel_128, cursor_invariant. destruct_state s. simpl in *.
  repeat (case_compare; simpl);
    destruct don, upd; simpl;
    (split; [constructor; simpl; (assumption || lia) | repeat split; (assumption || lia)]).
Qed.

Lemma schedule_update_invariant s :
  wf_state s -> 
  wf_state (sh1107_schedule_update s)
  /\ width (sh1107_schedule_update s) = width s
  /\ height (sh1107_schedule_update s) = height s
  /\ current_command_index (sh1107_schedule_update s) = current_command_index s
  /\ current_command_length (sh1107_schedule_update s) = current_command_length s.
Proof.
  intros [W1 W2 W3 W4 W5 W6 W7 W8]. unfold sh1107_schedule_update.
  destruct_state s. destruct upd; simpl in *;
    (split; [constructor; simpl; assumption | repeat split]).
Qed.

Lemma process_data_invariant s value s' :
  wf_state s -> panel_128 s -> cursor_invariant s ->
  sh1107_process_data s value = Some s' ->
  wf_state s' /\ panel_128 s' /\ cursor_invariant s'
  /\ current_command_index s' = current_command_index s
  /\ current_command_length s' = current_command_length s.
Proof.
  intros Hwf [P1 P2] [C1 C2]. unfold sh1107_process_data.
  destruct (pixels s !! Z.to_nat (data_target s)) as [old|]; [|discriminate].
  intros [= <-].
  set (s1 := set_pixels _ s).
  assert (Hs1 : wf_state s1 /\ width s1 = width s /\ height s1 = height s
                /\ active_column s1 = active_column s /\ active_page s1 = active_page s
                /\ current_command_index s1 = current_command_index s
                /\ current_command_length s1 = current_command_length s).
  { subst s1. destruct Hwf as [W1 W2 W3 W4 W5 W6 W7 W8]. destruct_state s. simpl in *.
    split; [constructor; simpl; try assumption; rewrite length_insert; assumption
           | repeat split]. }
  destruct Hs1 as (Hwf1 & Hw1 & Hh1 & Hac1 & Hap1 & Hi1 & Hl1).
  destruct (advance_address_cursor s1) as (Hpx & Hpage & Hvert); [lia..|].
  assert (Hadv : wf_state (advance_address s1)
                 /\ width (advance_address s1) = width s1
                 /\ height (advance_address s1) = height s1
                 /\ current_command_index (advance_address s1) = current_command_index s1
                 /\ current_command_length (advance_address s1) = current_command_length s1).
  { clear Hpx Hpage Hvert. destruct Hwf1 as [W1 W2 W3 W4 W5 W6 W7 W8].
    unfold advance_address, next_column. destruct_state s1. simpl in *.
    pose proof (u8_range (ac + 1)). pose proof (u8_range (ap + 1)).
    repeat (case_compare; simpl);
      (split; [constructor; simpl; (assumption || lia) | repeat split]). }
  destruct Hadv as (Hwf2 & Hw2 & Hh2 & Hi2 & Hl2).
  destruct (schedule_update_invariant _ Hwf2) as (Hwf3 & Hw3 & Hh3 & Hi3 & Hl3).
  destruct (schedule_update_keeps (advance_address s1)) as (_ & Hcur & _).
  injection Hcur as Hsc Hsp.
  split; [exact Hwf3|]. split; [split; congruence|].
  split; [|split; congruence].
  unfold cursor_invariant. rewrite Hsc, Hsp, Hw3, Hw2, Hw1.
  destruct (Z.eq_dec (memory_mode s1) CMD_SET_PAGE_ADDR_MODE) as [E|E].
  - destruct (Hpage E) as [-> ->]. rewrite Hac1, Hap1, Hw1.
    split; [apply Z.mod_pos_bound; lia | lia].
  - destruct (Hvert E) as [-> ->]. rewrite Hac1, Hap1, Hw1.
    split; [| apply Z.mod_pos_bound; lia].
    destruct (active_page s + 1 >? 15); [apply Z.mod_pos_bound; lia | lia].
Qed.

Lemma update_buffer_invariant s s' :
  wf_state s -> sh1107_update_buffer s = Some s' ->
  wf_state s' /\ width s' = width s /\ height s' = height s
  /\ active_column s' = active_column s /\ active_page s' = active_page s
  /\ current_command_index s' = current_command_index s
  /\ current_command_length s' = current_command_length s.
Proof.
  intros [W1 W2 W3 W4 W5 W6 W7 W8]. unfold sh1107_update_buffer.
  destruct (update_rows s (framebuffer s)) as [fb'|]; [|discriminate].
  intros [= <-]. destruct_state s. simpl in *.
  split; [constructor; simpl; assumption | repeat split].
Qed.

Lemma end_of_byte_invariant s :
  wf_state s ->
  let s' := fst (end_of_byte s) in
  wf_state s' /\ width s' = width s /\ height s' = height s
  /\ active_column s' = active_column s /\ active_page s' = active_page s
  /\ current_command_index s' = current_command_index s
  /\ current_command_length s' = current_command_length s.
Proof.
  intros [W1 W2 W3 W4 W5 W6 W7 W8]. unfold end_of_byte.
  destruct_state s. destruct cm; simpl in *;
    (split; [constructor; simpl; assumption | repeat split]).
Qed.


Lemma data_writer_defined s value :
  wf_state s -> panel_128 s -> cursor_invariant s ->
  exists s', sh1107_process_data s value = Some s'.
Proof.
  intros Hwf [Hw _] [Hc Hp].
  destruct (data_target_spec s Hwf ltac:(lia) ltac:(lia) ltac:(lia)) as [_ Hr].
  unfold sh1107_process_data.
  destruct (pixels s !! Z.to_nat (data_target s)) as [old|] eqn:Hold;
    [eexists; reflexivity|].
  apply lookup_ge_None in Hold. rewrite (wf_pixels s Hwf) in Hold.
  change PIXELS_SIZE with 2048 in Hold. lia.
Qed.

Lemma step_preserves_invariant s e s' :
  wf_state s -> panel_128 s -> cursor_invariant s -> assembler_invariant s ->
  wf_event e -> step s e = Some s' ->
  wf_state s' /\ panel_128 s' /\ cursor_invariant s' /\ assembler_invariant s'
  /\ (command_invariant s -> command_invariant s').
Proof.
  intros Hwf Hp Hcur Hcmd He Hstep.
  assert (Hframe : forall t, wf_state t -> width t = width s -> height t = height s ->
                     active_column t = active_column s -> active_page t = active_page s ->
                     current_command_index t = current_command_index s ->
                     current_command_length t = current_command_length s ->
                     wf_state t /\ panel_128 t /\ cursor_invariant t /\ assembler_invariant t
                     /\ (command_invariant s -> command_invariant t)).
  { intros t Ht Hw Hh Hc Hg Hi Hl.
    unfold panel_128, cursor_invariant, assembler_invariant, command_invariant in *.
    rewrite Hw, Hh, Hc, Hg, Hi, Hl. tauto. }
  destruct e as [|value|]; simpl in Hstep.
  - injection Hstep as <-. apply Hframe; [| destruct_state s; reflexivity ..].
    destruct Hwf as [W1 W2 W3 W4 W5 W6 W7 W8]. destruct_state s. simpl in *.
    constructor; simpl; assumption.
  - simpl in He. unfold sh1107_i2c_write in Hstep.
    destruct (control_byte s) eqn:Hcb.
    + simpl in Hstep. injection Hstep as <-.
      apply Hframe; [| destruct_state s; reflexivity ..].
      destruct Hwf as [W1 W2 W3 W4 W5 W6 W7 W8]. destruct_state s. simpl in *.
      constructor; simpl; assumption.
    + destruct (command_mode s) eqn:Hcm.
      * clear Hframe.
        destruct (current_command s !! Z.to_nat (current_command_index s)) as [old|] eqn:Hold;
          [|discriminate Hstep].
        remember (set_current_command
                    (<[Z.to_nat (current_command_index s) := value]> (current_command s)) s)
          as s1 eqn:Es1.
        assert (Hs1 : wf_state s1 /\ panel_128 s1 /\ cursor_invariant s1
                      /\ current_command_index s1 = current_command_index s
                      /\ current_command_length s1 = current_command_length s).
        { clear Hstep. subst s1. destruct Hwf as [W1 W2 W3 W4 W5 W6 W7 W8].
          unfold cursor_invariant, panel_128 in *. destruct_state s. simpl in *.
          split; [constructor; simpl; try assumption;
                  [rewrite length_insert; assumption | apply Forall_insert; assumption]
                 | tauto]. }
        destruct Hs1 as (Hwf1 & Hp1 & Hcur1 & Hi1 & Hl1).
        destruct (lookup_command_length s1 value) as [s2|] eqn:Hlook; [|discriminate Hstep].
        assert (Hs2 : wf_state s2 /\ panel_128 s2 /\ cursor_invariant s2
                      /\ 0 <= current_command_index s2 < current_command_length s2
                      /\ current_command_length s2 <= 8).
        { unfold lookup_command_length in Hlook. rewrite Hi1 in Hlook.
          unfold assembler_invariant, command_invariant in Hcmd.
          change COMMAND_SIZE with 8 in Hcmd.
          unfold truthy in Hlook.
          destruct (Z.eqb_spec (current_command_index s) 0) as [E|E]; simpl in Hlook.
          - destruct (Z_le_gt_dec value 0xdc) as [Hle|Hgt].
            + rewrite multi_byte_commands_in_table in Hlook by lia.
              injection Hlook as <-.
              assert (Hn : spec_parameter_count value = 0 \/ spec_parameter_count value = 1)
                by (unfold spec_parameter_count; destruct (_ || _); auto).
              destruct Hwf1 as [W1 W2 W3 W4 W5 W6 W7 W8].
              unfold cursor_invariant, panel_128 in *. destruct_state s1. simpl in *.
              split; [constructor; simpl; assumption|].
              destruct Hn as [-> | ->]; rewrite !u8_small by lia; repeat split; tauto || lia.
            + rewrite multi_byte_commands_past_table in Hlook by lia. discriminate.
          - injection Hlook as <-. rewrite Hi1, Hl1.
            split; [exact Hwf1|]. split; [exact Hp1|]. split; [exact Hcur1|].
            destruct Hcmd as [Hz|Hin]; [contradiction | exact Hin]. }
        destruct Hs2 as (Hwf2 & Hp2 & Hcur2 & Hr2 & Hr2').
        remember (set_current_command_index (u8 (current_command_index s2 + 1)) s2)
          as s3 eqn:Es3.
        assert (Hs3 : wf_state s3 /\ panel_128 s3 /\ cursor_invariant s3
                      /\ current_command_index s3 = current_command_index s2 + 1
                      /\ current_command_length s3 = current_command_length s2).
        { clear Hstep. subst s3. destruct Hwf2 as [W1 W2 W3 W4 W5 W6 W7 W8].
          unfold cursor_invariant, panel_128 in *. rewrite u8_small by lia.
          destruct_state s2. simpl in *.
          split; [constructor; simpl; (assumption || lia) | tauto]. }
        destruct Hs3 as (Hwf3 & Hp3 & Hcur3 & Hi3 & Hl3).
        assert (Hgoal : wf_state s' /\ panel_128 s' /\ cursor_invariant s'
                        /\ command_invariant s');
          [| unfold assembler_invariant; tauto].
        destruct (Z.ltb_spec (current_command_index s3) (current_command_length s3)) as [Hlt|Hge].
        -- injection Hstep as <-. split; [exact Hwf3|]. split; [exact Hp3|].
           split; [exact Hcur3|]. unfold command_invariant. change COMMAND_SIZE with 8. lia.
        -- assert (Hs' : s' = fst (end_of_byte (sh1107_process_command s3)))
             by (simpl in Hstep; injection Hstep as <-; reflexivity).
           clear Hstep. rewrite Hs'.
           destruct (process_command_invariant s3 Hwf3 Hp3 Hcur3)
             as (Hwf4 & [Hw4 Hh4] & [Hc4 Hg4] & Hi4 & Hl4).
           destruct (end_of_byte_invariant _ Hwf4)
             as (Hwf5 & Hw5 & Hh5 & Hc5 & Hg5 & Hi5 & Hl5).
           split; [exact Hwf5|]. split; [split; congruence|].
           unfold cursor_invariant, command_invariant.
           change COMMAND_SIZE with 8.
           rewrite Hc5, Hg5, Hw5, Hi5, Hl5, Hi4, Hl4, Hl3. repeat split; lia.
      * destruct (sh1107_process_data s value) as [s1|] eqn:Hdata; [|discriminate Hstep].
        assert (Hs' : s' = fst (end_of_byte s1))
          by (simpl in Hstep; injection Hstep as <-; reflexivity).
        clear Hstep Hframe. rewrite Hs'.
        destruct (process_data_invariant s value s1 Hwf Hp Hcur Hdata)
          as (Hwf1 & [Hw1 Hh1] & [Hc1 Hg1] & Hi1 & Hl1).
        destruct (end_of_byte_invariant _ Hwf1)
          as (Hwf5 & Hw5 & Hh5 & Hc5 & Hg5 & Hi5 & Hl5).
        split; [exact Hwf5|]. split; [split; congruence|].
        unfold assembler_invariant, cursor_invariant, command_invariant in *.
        rewrite Hc5, Hg5, Hw5, Hi5, Hl5, Hi1, Hl1. tauto.
  - destruct (update_buffer_invariant s s' Hwf Hstep)
      as (Hwf1 & Hw1 & Hh1 & Hc1 & Hg1 & Hi1 & Hl1).
    apply Hframe; assumption.
Qed.

Lemma run_preserves_invariant es : forall s s',
  wf_state s -> panel_128 s -> cursor_invariant s -> assembler_invariant s ->
  Forall wf_event es -> run s es = Some s' ->
  wf_state s' /\ panel_128 s' /\ cursor_invariant s' /\ assembler_invariant s'
  /\ (command_invariant s -> command_invariant s').
Proof.
  induction es as [|e es IH]; intros s s' Hwf Hp Hcur Hasm Hes Hrun; simpl in Hrun.
  - injection Hrun as <-. tauto.
  - destruct (step s e) as [s1|] eqn:Hstep; [|discriminate].
    apply Forall_cons in Hes. destruct Hes as [He Hes].
    destruct (step_preserves_invariant s e s1 Hwf Hp Hcur Hasm He Hstep)
      as (Hwf1 & Hp1 & Hcur1 & Hasm1 & Hcmd1).
    destruct (IH s1 s' Hwf1 Hp1 Hcur1 Hasm1 Hes Hrun) as (H1 & H2 & H3 & H4 & H5).
    tauto.
Qed.

Lemma chip_init_invariant memory :
  wf_state memory ->
  let s := chip_init memory 128 128 in
  wf_state s /\ panel_128 s /\ cursor_invariant s /\ assembler_invariant s.
Proof.
  intros Hwf. split; [apply chip_init_wf; exact Hwf|].
  unfold panel_128, cursor_invariant, assembler_invariant.
  destruct_state memory. simpl. repeat split; lia.
Qed.

(** Every state the chip can reach through defined behaviour keeps the
    cursor inside the display RAM and the command index inside the
    command buffer. *)
Lemma reachable_invariant memory es s :
  wf_state memory -> Forall wf_event es ->
  run (chip_init memory 128 128) es = Some s ->
  cursor_invariant s /\ 0 <= current_command_index s < COMMAND_SIZE.
Proof.
  intros Hwf Hes Hrun.
  destruct (chip_init_invariant memory Hwf) as (H1 & H2 & H3 & H4).
  destruct (run_preserves_invariant es _ s H1 H2 H3 H4 Hes Hrun)
    as (Hwf' & _ & Hcur & Hasm & _).
  split; [exact Hcur|].
  pose proof (wf_current_command_index s Hwf').
  destruct Hasm as [-> | [Hlt Hle]]; change COMMAND_SIZE with 8 in *; lia.
Qed.

(** Apart from the read past the parameter-count table every callback
    returns: the only undefined behaviour of a callback is the read past the
    parameter-count table. *)
Lemma step_defined s e :
  wf_state s -> panel_128 s -> cursor_invariant s -> assembler_invariant s ->
  wf_event e ->
  (forall value, e = I2cWrite value -> control_byte s = false -> command_mode s = true ->
                 current_command_index s = 0 -> value <= 0xdc) ->
  is_Some (step s e).
Proof.
  intros Hwf Hp Hcur Hasm He Htab.
  destruct e as [|value|]; simpl.
  - eexists. reflexivity.
  - simpl in He. unfold sh1107_i2c_write.
    destruct (control_byte s) eqn:Hcb; [eexists; reflexivity|].
    destruct (command_mode s) eqn:Hcm.
    + assert (Hidx : 0 <= current_command_index s < 8).
      { pose proof (wf_current_command_index s Hwf).
        destruct Hasm as [-> | [Hlt Hle]]; change COMMAND_SIZE with 8 in *; lia. }
      destruct (current_command s !! Z.to_nat (current_command_index s)) as [old|] eqn:Hold.
      * unfold lookup_command_length.
        replace (current_command_index (set_current_command _ s))
          with (current_command_index s) by (destruct_state s; reflexivity).
        unfold truthy. destruct (Z.eqb_spec (current_command_index s) 0) as [E|E]; simpl.
        -- rewrite multi_byte_commands_in_table
             by (specialize (Htab value eq_refl eq_refl eq_refl E); lia).
           destruct (_ <? _); eexists; reflexivity.
        -- destruct (_ <? _); eexists; reflexivity.
      * apply lookup_ge_None in Hold. rewrite (wf_current_command s Hwf) in Hold.
        change COMMAND_SIZE with 8 in Hold. lia.
    + destruct (data_writer_defined s value Hwf Hp Hcur) as [s1 ->].
      eexists. reflexivity.
  - destruct (sh1107_update_buffer_frame s Hwf Hp) as (fb' & -> & _).
    eexists. reflexivity.
Qed.


(** C6. The invariants do not survive every write of a command byte: in a
    reachable, well-formed state that satisfies them, the no-op opcode
    0xe3 arriving as the first byte of a command makes
    [sh1107_i2c_write] read the parameter-count table past its end, so the
    expected length, and with it the bound on the command index, is left
    undefined.  Every defined operation does preserve them
    ([step_preserves_invariant]). *)
Theorem command_byte_0xe3_undefined :
  wf_state shown_chip /\ panel_128 shown_chip /\ device_invariant shown_chip
  /\ (control_byte shown_chip, command_mode shown_chip) = (false, true)
  /\ wf_event (I2cWrite CMD_NOP)
  /\ step shown_chip (I2cWrite CMD_NOP) = None.
Proof.
  split; [closed_wf|].
  vm_compute. repeat split; discriminate || reflexivity.
Qed.

(** ** C8: invert, then normal *)

Lemma spec_frame_byte_ext s t k :
  render_inputs s = render_inputs t ->
  invert s = invert t \/ display_on s = false ->
  spec_frame_byte s k = spec_frame_byte t k.
Proof.
  intros Hin Hinv. unfold render_inputs in Hin.
  injection Hin as Hw Hh Hxo Hpx Hsl Hrr Hdon.
  unfold spec_frame_byte, spec_output_pixel, spec_lit, spec_bit, spec_source_index,
    spec_virtual_y, spec_scroll_y.
  rewrite <- Hw, <- Hh, <- Hxo, <- Hpx, <- Hsl, <- Hrr, <- Hdon.
  destruct Hinv as [<- | ->]; [reflexivity|].
  rewrite !andb_false_r. reflexivity.
Qed.


Lemma sh1107_update_buffer_total s :
  wf_state s -> panel_128 s -> exists r, sh1107_update_buffer s = Some r.
Proof.
  intros Hwf Hp. destruct (sh1107_update_buffer_frame s Hwf Hp) as (fb' & Hr & _).
  eexists. exact Hr.
Qed.

Lemma rendered_frame s r k :
  wf_state s -> panel_128 s -> sh1107_update_buffer s = Some r ->
  0 <= k < FRAME_BYTES -> framebuffer r !! k = Some (spec_frame_byte s k).
Proof.
  intros Hwf Hp Hr Hk.
  destruct (sh1107_update_buffer_frame s Hwf Hp) as (fb' & Hr' & Hf).
  rewrite Hr in Hr'. injection Hr' as ->.
  replace (framebuffer (set_updated false (set_framebuffer fb' s))) with fb'
    by (destruct_state s; reflexivity).
  apply Hf. exact Hk.
Qed.




(** ** C9: coalesced redraw requests *)

Lemma process_data_trigger s value s1 :
  sh1107_process_data s value = Some s1 ->
  pixels s1 = <[Z.to_nat (data_target s) := value]> (pixels s)
  /\ updated s1 = true
  /\ update_timer s1
     = if updated s then update_timer s else (16667, false) :: update_timer s.
Proof.
  unfold sh1107_process_data.
  destruct (pixels s !! Z.to_nat (data_target s)) as [old|]; [|discriminate].
  intros [= <-]. generalize (Z.to_nat (data_target s)). intros cell.
  unfold advance_address, next_column, sh1107_schedule_update.
  destruct_state s. simpl.
  repeat (case_compare; simpl); destruct upd; repeat split; reflexivity.
Qed.

(** C9. With no redraw pending, of two redraw requests made by two data
    writes the first sets the pending flag and arms the one-shot timer
    (16667 microseconds, no repeat); the second arms nothing, as would
    any further request; the render that then fires returns, leaves in
    the pixel sink the frame of the state after both writes, clears the
    pending flag and arms nothing. *)
Theorem render_coalescing (s : sh1107_state_t) (v1 v2 : Z) :
  wf_state s -> panel_128 s -> cursor_invariant s -> updated s = false ->
  exists s1 s2 r,
    sh1107_process_data s v1 = Some s1
    /\ updated s1 = true
    /\ update_timer s1 = (16667, false) :: update_timer s
    /\ sh1107_process_data s1 v2 = Some s2
    /\ updated s2 = true
    /\ update_timer s2 = update_timer s1
    /\ sh1107_schedule_update s2 = s2
    /\ pixels s2 = <[Z.to_nat (data_target s1) := v2]>
                     (<[Z.to_nat (data_target s) := v1]> (pixels s))
    /\ sh1107_update_buffer s2 = Some r
    /\ (forall k, 0 <= k < FRAME_BYTES -> framebuffer r !! k = Some (spec_frame_byte s2 k))
    /\ updated r = false
    /\ update_timer r = update_timer s2.
Proof.
  intros Hwf Hp Hcur Hupd.
  destruct (data_writer_defined s v1 Hwf Hp Hcur) as [s1 Hs1].
  destruct (process_data_invariant s v1 s1 Hwf Hp Hcur Hs1) as (Hwf1 & Hp1 & Hcur1 & _).
  destruct (process_data_trigger s v1 s1 Hs1) as (Hpx1 & Hu1 & Ht1).
  rewrite Hupd in Ht1.
  destruct (data_writer_defined s1 v2 Hwf1 Hp1 Hcur1) as [s2 Hs2].
  destruct (process_data_invariant s1 v2 s2 Hwf1 Hp1 Hcur1 Hs2) as (Hwf2 & Hp2 & Hcur2 & _).
  destruct (process_data_trigger s1 v2 s2 Hs2) as (Hpx2 & Hu2 & Ht2).
  rewrite Hu1 in Ht2.
  destruct (sh1107_update_buffer_frame s2 Hwf2 Hp2) as (fb' & Hr & Hf).
  exists s1, s2, (set_updated false (set_framebuffer fb' s2)).
  split; [exact Hs1|]. split; [exact Hu1|]. split; [exact Ht1|].
  split; [exact Hs2|]. split; [exact Hu2|]. split; [exact Ht2|].
  split; [apply schedule_update_pending; exact Hu2|].
  split; [rewrite Hpx2, Hpx1; reflexivity|].
  split; [exact Hr|].
  split; [intros k Hk; apply (rendered_frame s2 _ k Hwf2 Hp2 Hr Hk)|].
  destruct_state s2. split; reflexivity.
Qed.

Lemma render_coalescing_witness :
  exists s1 s2 r,
    sh1107_process_data shown_chip 0x0f = Some s1
    /\ updated s1 = true
    /\ update_timer s1 = (16667, false) :: update_timer shown_chip
    /\ sh1107_process_data s1 0xf0 = Some s2
    /\ updated s2 = true
    /\ update_timer s2 = update_timer s1
    /\ sh1107_schedule_update s2 = s2
    /\ pixels s2 = <[Z.to_nat (data_target s1) := 0xf0]>
                     (<[Z.to_nat (data_target shown_chip) := 0x0f]> (pixels shown_chip))
    /\ sh1107_update_buffer s2 = Some r
    /\ (forall k, 0 <= k < FRAME_BYTES -> framebuffer r !! k = Some (spec_frame_byte s2 k))
    /\ updated r = false
    /\ update_timer r = update_timer s2.
Proof.
  apply (render_coalescing shown_chip 0x0f 0xf0).
  - closed_wf.
  - split; vm_compute; reflexivity.
  - vm_compute. repeat split; discriminate || reflexivity.
  - vm_compute. reflexivity.
Defined.

(** * Further properties of the byte receiver, the interpreter, the data
    writer and the renderer *)

(** ** The byte receiver *)

Lemma truthy_land_mask v : 
  truthy (Z.land v SH1107_CONTROL_DC) = Z.testbit v 6
  /\ truthy (Z.land v SH1107_CONTROL_CO) = Z.testbit v 7.
Proof.
  split.
  - change SH1107_CONTROL_DC with (Z.shiftl 1 6). apply truthy_land_bit. lia.
  - change SH1107_CONTROL_CO with (Z.shiftl 1 7). apply truthy_land_bit. lia.
Qed.

(** X1. While a control byte is expected, a written byte is acknowledged and
    consumed as the control byte: command mode is set exactly when bit 6
    is clear, continuous mode exactly when bit 7 is clear, the expectation
    is cleared, and neither the device (registers, cursor, display RAM,
    pixel sink, timer, console) nor the command assembler changes. *)
Theorem control_byte_is_decoded (s : sh1107_state_t) (value : Z) :
  control_byte s = true ->
  exists s',
    sh1107_i2c_write s value = Some (s', true)
    /\ protocol_view s' = (false, negb (Z.testbit value 7), negb (Z.testbit value 6))
    /\ device_view s' = device_view s
    /\ assembler_view s' = assembler_view s.
Proof.
  intros Hcb. unfold sh1107_i2c_write. rewrite Hcb.
  destruct (truthy_land_mask value) as [Hdc Hco].
  eexists. split; [reflexivity|].
  unfold protocol_view, device_view, assembler_view.
  destruct_state s. simpl. rewrite Hdc, Hco. repeat split.
Qed.

(** X16. Whatever the opcode, the interpreter never writes the display RAM
    or the pixel sink, never changes the byte receiver's flags, the
    command buffer or its expected length, the panel geometry, the column
    offset or the multiplex ratio, and always resets the command index to
    0. *)
Theorem interpreter_leaves_memory_and_protocol (s : sh1107_state_t) :
  let s' := sh1107_process_command s in
  pixels s' = pixels s
  /\ framebuffer s' = framebuffer s
  /\ protocol_view s' = protocol_view s
  /\ (current_command_length s', current_command s')
     = (current_command_length s, current_command s)
  /\ current_command_index s' = 0
  /\ (width s', height s', x_offset s', multiplex_ratio s')
     = (width s, height s, x_offset s, multiplex_ratio s).
Proof.
  unfold sh1107_process_command, command_switch, print_unknown, sh1107_schedule_update,
    protocol_view.
  generalize (command_at s 0) (command_at s 1). intros c p.
  unfold_opcodes. destruct_state s.
  repeat (case_compare; simpl); destruct don, upd; repeat split.
Qed.

(** X5. Interpreting an opcode of the not-implemented set (display offset,
    multiplex, VCOM deselect, COM pins, display-all-on and its resume) or
    the no-op changes nothing but the command index, which is reset to 0:
    no register, no cursor, no redraw request, no diagnostic. *)
Theorem not_implemented_changes_nothing (s : sh1107_state_t) :
  not_implemented_opcode (command_at s 0) = true \/ command_at s 0 = CMD_NOP ->
  sh1107_process_command s = set_current_command_index 0 s.
Proof.
  unfold sh1107_process_command, command_switch, print_unknown, sh1107_schedule_update.
  generalize (command_at s 0) (command_at s 1). intros c p.
  unfold_classes. unfold_opcodes.
  repeat (case_compare; simpl); intros [Hni|Hni]; try discriminate Hni; try lia;
    destruct_state s; reflexivity.
Qed.

Lemma data_write_views s value s1 :
  sh1107_process_data s value = Some s1 ->
  configuration s1 = configuration s
  /\ assembler_view s1 = assembler_view s
  /\ protocol_view s1 = protocol_view s
  /\ (framebuffer s1, console s1) = (framebuffer s, console s).
Proof.
  unfold sh1107_process_data.
  destruct (pixels s !! Z.to_nat (data_target s)) as [old|]; [|discriminate].
  intros [= <-]. generalize (Z.to_nat (data_target s)). intros cell.
  unfold advance_address, next_column, sh1107_schedule_update.
  destruct_state s. simpl.
  repeat (case_compare; simpl); destruct upd; repeat split; reflexivity.
Qed.

Lemma end_of_byte_views s :
  let s' := fst (end_of_byte s) in
  device_view s' = device_view s
  /\ assembler_view s' = assembler_view s
  /\ (continuous_mode s', command_mode s') = (continuous_mode s, command_mode s)
  /\ control_byte s' = (if continuous_mode s then control_byte s else true)
  /\ snd (end_of_byte s) = true.
Proof.
  unfold end_of_byte. destruct_state s. destruct cm; repeat split.
Qed.

(** X9. A data byte is acknowledged and changes no configuration register,
    nothing of the command assembler, the pixel sink or the console; it
    always leaves a redraw pending, arming the timer exactly when none was
    pending, and asks for a control byte next exactly in single-shot
    mode. *)
Theorem data_write_touches_ram_and_cursor_only (s : sh1107_state_t) (value : Z) :
  wf_state s -> panel_128 s -> cursor_invariant s ->
  control_byte s = false -> command_mode s = false ->
  exists s',
    sh1107_i2c_write s value = Some (s', true)
    /\ configuration s' = configuration s
    /\ assembler_view s' = assembler_view s
    /\ (framebuffer s', console s') = (framebuffer s, console s)
    /\ (continuous_mode s', command_mode s') = (continuous_mode s, false)
    /\ control_byte s' = negb (continuous_mode s)
    /\ updated s' = true
    /\ update_timer s'
       = if updated s then update_timer s else (16667, false) :: update_timer s.
Proof.
  intros Hwf Hp Hcur Hcb Hcm.
  destruct (data_writer_defined s value Hwf Hp Hcur) as [s1 Hs1].
  destruct (data_write_views s value s1 Hs1) as (Hc & Ha & Hpr & Hf).
  destruct (process_data_trigger s value s1 Hs1) as (_ & Hu & Ht).
  destruct (end_of_byte_views s1) as (Hd & Ha' & Hm & Hcb' & Hack).
  unfold sh1107_i2c_write. rewrite Hcb, Hcm, Hs1.
  exists (fst (end_of_byte s1)).
  split; [destruct (end_of_byte s1); simpl in *; congruence|].
  assert (Hco : continuous_mode s1 = continuous_mode s
               /\ command_mode s1 = command_mode s /\ control_byte s1 = control_byte s)
    by (unfold protocol_view in Hpr; repeat split; congruence).
  destruct Hco as (Hco1 & Hco2 & Hco3).
  rewrite Hco1, Hco3, Hcb in Hcb'.
  unfold device_view in Hd.
  repeat split; try congruence.
  rewrite Hcb'. destruct (continuous_mode s); reflexivity.
Qed.

Lemma two_byte_opcode_cases c :
  spec_parameter_count c = 1 ->
  c = CMD_SET_CONTRAST \/ c = CMD_SET_MULTIPLEX \/ c = CMD_DCDC
  \/ c = CMD_SET_DISPLAY_OFFSET \/ c = CMD_SET_COM_PINS \/ c = CMD_SET_DISPLAY_CLOCK_DIV
  \/ c = CMD_SET_PRECHARGE \/ c = CMD_SET_VCOM_DESELECT \/ c = CMD_SET_DISP_START_LINE.
Proof.
  unfold spec_parameter_count. unfold_opcodes.
  repeat (case_compare; simpl; [tauto|]). discriminate.
Qed.

Lemma first_byte_is_buffered s c :
  wf_state s -> control_byte s = false -> command_mode s = true ->
  current_command_index s = 0 -> spec_parameter_count c = 1 ->
  sh1107_i2c_write s c = Some (half_assembled c s, true).
Proof.
  intros Hwf Hcb Hcm Hidx Hc.
  assert (Htab : multi_byte_commands !! Z.to_nat c = Some 1).
  { rewrite <- Hc. apply multi_byte_commands_in_table.
    destruct (two_byte_opcode_cases c Hc) as [H|[H|[H|[H|[H|[H|[H|[H|H]]]]]]]];
      subst c; vm_compute; split; discriminate. }
  pose proof (wf_current_command s Hwf) as Hlen.
  unfold sh1107_i2c_write, lookup_command_length, half_assembled.
  rewrite Hcb, Hcm, Hidx.
  destruct (current_command s !! Z.to_nat 0) as [old|] eqn:Hold;
    [| apply lookup_ge_None in Hold; rewrite Hlen in Hold; change COMMAND_SIZE with 8 in Hold; lia].
  destruct_state s. simpl in *. subst. simpl. rewrite Htab. simpl. reflexivity.
Qed.

Lemma second_byte_completes s c p :
  wf_state s -> control_byte s = false -> command_mode s = true ->
  sh1107_i2c_write (half_assembled c s) p
  = Some (end_of_byte (sh1107_process_command (assembled2 c p s))).
Proof.
  intros Hwf Hcb Hcm.
  pose proof (wf_current_command s Hwf) as Hlen.
  unfold sh1107_i2c_write, lookup_command_length, half_assembled, assembled2.
  destruct_state s. simpl in *. subst.
  destruct cc as [|c0 [|c1 cc]]; try discriminate Hlen. simpl. reflexivity.
Qed.

(** X3. The first byte of a two-byte command is acknowledged and only
    buffered: the device is unchanged, no redraw is requested, the command
    index is 1 of 2, and the protocol flags are kept, so that even in
    single-shot mode the next byte is taken as the parameter without a
    control byte in between. *)
Theorem first_byte_of_two_only_buffers (s : sh1107_state_t) (c : Z) :
  wf_state s -> control_byte s = false -> command_mode s = true ->
  current_command_index s = 0 -> spec_parameter_count c = 1 ->
  exists s',
    sh1107_i2c_write s c = Some (s', true)
    /\ device_view s' = device_view s
    /\ protocol_view s' = protocol_view s
    /\ (current_command_index s', current_command_length s') = (1, 2)
    /\ command_at s' 0 = c.
Proof.
  intros Hwf Hcb Hcm Hidx Hc.
  exists (half_assembled c s).
  split; [apply first_byte_is_buffered; assumption|].
  pose proof (wf_current_command s Hwf) as Hlen.
  unfold half_assembled, command_at. destruct_state s. simpl in *.
  destruct cc as [|c0 cc]; [discriminate Hlen|]. repeat split.
Qed.

Lemma two_byte_command_run s c p :
  wf_state s -> control_byte s = false -> command_mode s = true ->
  current_command_index s = 0 -> spec_parameter_count c = 1 ->
  run s [I2cWrite c; I2cWrite p]
  = Some (fst (end_of_byte (sh1107_process_command (assembled2 c p s)))).
Proof.
  intros Hwf Hcb Hcm Hidx Hc. unfold run, step.
  rewrite (first_byte_is_buffered s c Hwf Hcb Hcm Hidx Hc). simpl fmap.
  cbv iota beta. rewrite (second_byte_completes s c p Hwf Hcb Hcm). reflexivity.
Qed.

Lemma low_nibble p : 0 <= p < 256 -> u8 (Z.land p 15) = p mod 16.
Proof.
  intros Hp. change 15 with (Z.ones 4). rewrite Z.land_ones by lia.
  change (2 ^ 4) with 16. apply u8_small.
  pose proof (Z.mod_pos_bound p 16 ltac:(lia)). lia.
Qed.

Lemma high_nibble p : 0 <= p < 256 -> u8 (Z.land (Z.shiftr p 4) 15) = p / 16.
Proof.
  intros Hp. rewrite Z.shiftr_div_pow2 by lia. change (2 ^ 4) with 16.
  assert (0 <= p / 16 < 16)
    by (split; [apply Z.div_pos; lia | apply Z.div_lt_upper_bound; lia]).
  change 15 with (Z.ones 4). rewrite Z.land_ones by lia. change (2 ^ 4) with 16.
  rewrite Z.mod_small by lia. apply u8_small. lia.
Qed.

Lemma clock_value p : 0 <= p < 256 -> u8 (1 + Z.land p 15) = 1 + p mod 16.
Proof.
  intros Hp. change 15 with (Z.ones 4). rewrite Z.land_ones by lia.
  change (2 ^ 4) with 16. apply u8_small.
  pose proof (Z.mod_pos_bound p 16 ltac:(lia)). lia.
Qed.

Ltac run_two_bytes s :=
  let Hlen := fresh "Hlen" in
  match goal with Hwf : wf_state s |- _ => pose proof (wf_current_command s Hwf) as Hlen end;
  rewrite two_byte_command_run by (assumption || reflexivity);
  eexists; split; [reflexivity|];
  unfold end_of_byte, sh1107_process_command, command_switch, assembled2, command_at,
    sh1107_schedule_update, configuration, cursor;
  destruct_state s; simpl in *;
  match goal with H : length ?cc = _ |- _ =>
    destruct cc as [|? [|? ?]]; try discriminate H end;
  simpl.

(** X4. Sent as opcode and parameter byte p, set contrast stores p, set
    display start line stores p, set clock divider stores 1 + p mod 16
    (always in 1..16) and set precharge stores p mod 16 as phase 1 and
    p / 16 as phase 2; each changes no other register, nor the cursor or
    the display RAM, and leaves the assembler ready for the next
    command. *)
Theorem parameter_commands_set_registers (s : sh1107_state_t) (p : Z) :
  wf_state s -> control_byte s = false -> command_mode s = true ->
  current_command_index s = 0 -> 0 <= p < 256 ->
  (exists s', run s [I2cWrite CMD_SET_CONTRAST; I2cWrite p] = Some s'
     /\ configuration s' = configuration (set_contrast p s)
     /\ cursor s' = cursor s /\ pixels s' = pixels s /\ current_command_index s' = 0)
  /\ (exists s', run s [I2cWrite CMD_SET_DISP_START_LINE; I2cWrite p] = Some s'
     /\ configuration s' = configuration (set_start_line p s)
     /\ cursor s' = cursor s /\ pixels s' = pixels s /\ current_command_index s' = 0)
  /\ (exists s', run s [I2cWrite CMD_SET_DISPLAY_CLOCK_DIV; I2cWrite p] = Some s'
     /\ configuration s' = configuration (set_clock_divider (1 + p mod 16) s)
     /\ cursor s' = cursor s /\ pixels s' = pixels s /\ current_command_index s' = 0)
  /\ (exists s', run s [I2cWrite CMD_SET_PRECHARGE; I2cWrite p] = Some s'
     /\ configuration s' = configuration (set_phase2 (p / 16) (set_phase1 (p mod 16) s))
     /\ cursor s' = cursor s /\ pixels s' = pixels s /\ current_command_index s' = 0).
Proof.
  intros Hwf Hcb Hcm Hidx Hp.
  pose proof (low_nibble p Hp) as Hlo. pose proof (high_nibble p Hp) as Hhi.
  pose proof (clock_value p Hp) as Hck.
  repeat split.
  - run_two_bytes s. destruct don, upd, cm; repeat split.
  - run_two_bytes s. destruct don, upd, cm; repeat split.
  - run_two_bytes s. rewrite Hck. destruct cm; repeat split.
  - run_two_bytes s. rewrite Hlo, Hhi. destruct cm; repeat split.
Qed.

(** X17. A bus reconnect does not abandon a command in progress: after the
    opcode of set contrast, a reconnect and a control byte selecting
    command mode, the next byte is stored as the contrast, whatever opcode
    it would otherwise be, and nothing else changes. *)
Theorem reconnect_keeps_pending_command (s : sh1107_state_t) (ctl p : Z) :
  wf_state s -> control_byte s = false -> command_mode s = true ->
  current_command_index s = 0 -> Z.testbit ctl 6 = false ->
  exists s',
    run s [I2cWrite CMD_SET_CONTRAST; I2cConnect; I2cWrite ctl; I2cWrite p] = Some s'
    /\ configuration s' = configuration (set_contrast p s)
    /\ cursor s' = cursor s /\ pixels s' = pixels s
    /\ current_command_index s' = 0.
Proof.
  intros Hwf Hcb Hcm Hidx Hctl.
  pose proof (wf_current_command s Hwf) as Hlen.
  destruct (truthy_land_mask ctl) as [Hdc Hco]. rewrite Hctl in Hdc.
  unfold run. unfold step at 1.
  rewrite (first_byte_is_buffered s CMD_SET_CONTRAST Hwf Hcb Hcm Hidx eq_refl).
  simpl fmap. cbv iota beta.
  unfold step, sh1107_i2c_connect, sh1107_i2c_write, lookup_command_length, half_assembled.
  destruct_state s. simpl in *. subst.
  destruct cc as [|c0 [|c1 cc]]; try discriminate Hlen.
  simpl. rewrite Hdc. simpl.
  unfold end_of_byte, sh1107_process_command, command_switch, command_at,
    sh1107_schedule_update, configuration, cursor. simpl.
  eexists. split; [reflexivity|].
  destruct don, upd, (negb (truthy (Z.land ctl SH1107_CONTROL_CO))); repeat split.
Qed.

Lemma process_command_keeps_buffer s :
  current_command (sh1107_process_command s) = current_command s.
Proof.
  unfold sh1107_process_command, command_switch, print_unknown, sh1107_schedule_update.
  generalize (command_at s 0) (command_at s 1). intros c p.
  unfold_opcodes. destruct_state s.
  repeat (case_compare; simpl); destruct don, upd; reflexivity.
Qed.

Lemma column_low_command s :
  0 <= command_at s 0 <= 0x0f ->
  sh1107_process_command s
  = set_current_command_index 0
      (set_active_column (column_after_low (active_column s) (command_at s 0)) s).
Proof.
  unfold sh1107_process_command, command_switch, print_unknown, column_after_low.
  generalize (command_at s 0) (command_at s 1). intros c p Hc. unfold_opcodes.
  repeat (case_compare; simpl; try lia). reflexivity.
Qed.

Lemma column_high_command s :
  0x10 <= command_at s 0 <= 0x17 ->
  sh1107_process_command s
  = set_current_command_index 0
      (set_active_column (column_after_high (active_column s) (command_at s 0)) s).
Proof.
  unfold sh1107_process_command, command_switch, print_unknown, column_after_high.
  generalize (command_at s 0) (command_at s 1). intros c p Hc. unfold_opcodes.
  repeat (case_compare; simpl; try lia). reflexivity.
Qed.

Lemma column_pair_ok_all : forallb column_pair_ok (map Z.of_nat (seq 0 256)) = true.
Proof. vm_compute. reflexivity. Qed.

Lemma column_pair column target :
  0 <= column < 256 -> 0 <= target < 128 ->
  column_after_high (column_after_low column (target mod 16)) (0x10 + target / 16) = target
  /\ column_after_low (column_after_high column (0x10 + target / 16)) (target mod 16) = target.
Proof.
  intros Hc Ht.
  pose proof (forallb_below _ 256 column_pair_ok_all column ltac:(lia)) as H.
  pose proof (forallb_below _ 128 H target ltac:(lia)) as H'. simpl in H'.
  apply andb_true_iff in H'. destruct H' as [H1 H2].
  apply Z.eqb_eq in H1, H2. split; assumption.
Qed.

Lemma command_at_assembled opcode s :
  length (current_command s) = Z.to_nat COMMAND_SIZE ->
  command_at (assembled opcode s) 0 = opcode.
Proof.
  intros Hlen. unfold command_at, assembled. destruct_state s. simpl in *.
  destruct cc as [|c0 cc]; [discriminate Hlen|]. reflexivity.
Qed.

(** X6. For every target column below 128, the low-nibble command
    (target mod 16) and the high-bits command (0x10 + target / 16) select
    that column whatever the column was before and in either order; they
    change no configuration register, page, display RAM cell or redraw
    state. *)
Theorem column_address_pair_selects_column (s : sh1107_state_t) (target : Z) :
  wf_state s -> 0 <= target < 128 ->
  let low := target mod 16 in
  let high := 0x10 + target / 16 in
  let low_high :=
    sh1107_process_command (assembled high (sh1107_process_command (assembled low s))) in
  let high_low :=
    sh1107_process_command (assembled low (sh1107_process_command (assembled high s))) in
  active_column low_high = target
  /\ active_column high_low = target
  /\ configuration low_high = configuration s
  /\ configuration high_low = configuration s
  /\ (active_page low_high, pixels low_high, updated low_high, update_timer low_high)
     = (active_page s, pixels s, updated s, update_timer s)
  /\ (active_page high_low, pixels high_low, updated high_low, update_timer high_low)
     = (active_page s, pixels s, updated s, update_timer s).
Proof.
  intros Hwf Ht low high low_high high_low.
  pose proof (wf_current_command s Hwf) as Hlen.
  pose proof (wf_active_column s Hwf) as Hac.
  destruct (column_pair (active_column s) target Hac Ht) as [Hlh Hhl].
  assert (Hlow : 0 <= low <= 15)
    by (subst low; pose proof (Z.mod_pos_bound target 16 ltac:(lia)); lia).
  assert (Hhigh : 16 <= high <= 23).
  { subst high. assert (0 <= target / 16 < 8)
      by (split; [apply Z.div_pos; lia | apply Z.div_lt_upper_bound; lia]). lia. }
  assert (Hlen' : forall c t, length (current_command t) = Z.to_nat COMMAND_SIZE ->
            length (current_command (sh1107_process_command (assembled c t)))
            = Z.to_nat COMMAND_SIZE).
  { intros c t Hl.
    rewrite process_command_keeps_buffer. unfold assembled. destruct t. simpl in *.
    rewrite length_insert. exact Hl. }
  subst low_high high_low.
  rewrite (column_high_command (assembled high (sh1107_process_command (assembled low s))))
    by (rewrite command_at_assembled by (apply Hlen'; exact Hlen); lia).
  rewrite (column_low_command (assembled low s))
    by (rewrite command_at_assembled by exact Hlen; lia).
  rewrite (column_low_command (assembled low (sh1107_process_command (assembled high s))))
    by (rewrite command_at_assembled by (apply Hlen'; exact Hlen); lia).
  rewrite (column_high_command (assembled high s))
    by (rewrite command_at_assembled by exact Hlen; lia).
  rewrite !command_at_assembled
    by (try exact Hlen; unfold assembled; destruct s; simpl in *;
        rewrite ?length_insert; assumption).
  change (target mod 16) with low in Hlh, Hhl.
  change (0x10 + target / 16) with high in Hlh, Hhl.
  clearbody low high.
  unfold assembled, configuration. destruct_state s. simpl in *.
  rewrite Hlh, Hhl. repeat split.
Qed.

Lemma process_data_cursor s value s1 :
  wf_state s -> panel_128 s -> cursor_invariant s ->
  sh1107_process_data s value = Some s1 ->
  pixels s1 = <[Z.to_nat (data_target s) := value]> (pixels s)
  /\ (memory_mode s = CMD_SET_PAGE_ADDR_MODE ->
      active_column s1 = (active_column s + 1) mod 128 /\ active_page s1 = active_page s)
  /\ (memory_mode s <> CMD_SET_PAGE_ADDR_MODE ->
      active_page s1 = (active_page s + 1) mod 16
      /\ active_column s1
         = if active_page s + 1 >? 15 then (active_column s + 1) mod 128
           else active_column s).
Proof.
  intros Hwf [Hw Hh] [Hc Hp] Hrun.
  destruct (process_data_trigger s value s1 Hrun) as (Hpx & _ & _).
  split; [exact Hpx|].
  unfold sh1107_process_data in Hrun.
  destruct (pixels s !! Z.to_nat (data_target s)) as [old|]; [|discriminate].
  injection Hrun as <-.
  set (t := set_pixels _ s).
  assert (Ht : active_column t = active_column s /\ active_page t = active_page s
               /\ width t = width s /\ memory_mode t = memory_mode s)
    by (subst t; destruct s; repeat split; reflexivity).
  destruct Ht as (Hac & Hap & Hwt & Hmm).
  destruct (advance_address_cursor t) as (_ & Hpage & Hvert); [lia..|].
  destruct (schedule_update_keeps (advance_address t)) as (_ & Hcur & _).
  unfold cursor in Hcur.
  assert (Hsc : active_column (sh1107_schedule_update (advance_address t))
                = active_column (advance_address t)) by congruence.
  assert (Hsp : active_page (sh1107_schedule_update (advance_address t))
                = active_page (advance_address t)) by congruence.
  rewrite Hsc, Hsp. rewrite Hmm, Hac, Hap, Hwt, Hw in Hpage, Hvert.
  split; assumption.
Qed.

Lemma data_burst_step s value :
  data_burst_ready s ->
  exists s1,
    step s (I2cWrite value) = Some s1
    /\ sh1107_process_data s value = Some s1
    /\ data_burst_ready s1
    /\ memory_mode s1 = memory_mode s
    /\ segment_remap s1 = segment_remap s.
Proof.
  intros (Hwf & Hp & Hcur & Hpr).
  destruct (data_writer_defined s value Hwf Hp Hcur) as [s1 Hs1].
  destruct (data_write_views s value s1 Hs1) as (Hc & _ & Hpr1 & _).
  destruct (process_data_invariant s value s1 Hwf Hp Hcur Hs1) as (Hwf1 & Hp1 & Hcur1 & _).
  rewrite Hpr in Hpr1.
  assert (Hflags : control_byte s = false /\ command_mode s = false
                   /\ continuous_mode s1 = true)
    by (unfold protocol_view in *; repeat split; congruence).
  destruct Hflags as (Hcb & Hcm & Hco1).
  exists s1. split.
  - unfold step, sh1107_i2c_write, end_of_byte. rewrite Hcb, Hcm, Hs1, Hco1. reflexivity.
  - split; [exact Hs1|].
    split; [split; [exact Hwf1|]; split; [exact Hp1|]; split; [exact Hcur1 | exact Hpr1]|].
    unfold configuration in Hc. split; congruence.
Qed.

Lemma run_cons s e es s1 : step s e = Some s1 -> run s (e :: es) = run s1 es.
Proof. intros H. simpl. rewrite H. reflexivity. Qed.

(** X7. A continuous burst of n data bytes is defined and moves the cursor
    as a counter: in page mode the column advances by n modulo 128 and the
    page stays; in every other mode the page advances by n modulo 16 and
    the column by the number of page wrap-arounds, modulo 128. *)
Theorem data_burst_moves_cursor (vs : list Z) : forall s : sh1107_state_t,
  data_burst_ready s ->
  let n := Z.of_nat (length vs) in
  exists s',
    run s (map I2cWrite vs) = Some s'
    /\ data_burst_ready s'
    /\ (memory_mode s = CMD_SET_PAGE_ADDR_MODE ->
        active_column s' = (active_column s + n) mod 128
        /\ active_page s' = active_page s)
    /\ (memory_mode s <> CMD_SET_PAGE_ADDR_MODE ->
        active_page s' = (active_page s + n) mod 16
        /\ active_column s' = (active_column s + (active_page s + n) / 16) mod 128).
Proof.
  induction vs as [|v vs IH]; intros s Hready n; subst n.
  - destruct Hready as (Hwf & Hp & [Hc Hg] & Hpr) eqn:E. clear E.
    destruct Hp as [Hw Hh]. rewrite Hw in Hc.
    exists s. split; [reflexivity|]. split; [exact Hready|].
    simpl length. rewrite !Z.add_0_r.
    split; intros _.
    + rewrite Z.mod_small by lia. split; reflexivity.
    + rewrite Z.div_small by lia. rewrite Z.add_0_r, !Z.mod_small by lia.
      split; reflexivity.
  - destruct (data_burst_step s v Hready) as (s1 & Hstep & Hdata & Hready1 & Hmm & _).
    destruct Hready as (Hwf & Hp & Hcur & Hpr).
    destruct (process_data_cursor s v s1 Hwf Hp Hcur Hdata) as (_ & Hpage & Hvert).
    destruct (IH s1 Hready1) as (s' & Hrun & Hready' & Hpage' & Hvert').
    destruct Hcur as [Hc Hg]. destruct Hp as [Hw Hh]. rewrite Hw in Hc.
    exists s'. split; [rewrite map_cons, (run_cons s _ _ s1 Hstep); exact Hrun|].
    split; [exact Hready'|].
    rewrite Hmm in Hpage', Hvert'.
    replace (Z.of_nat (length (v :: vs))) with (1 + Z.of_nat (length vs))
      by (simpl length; lia).
    set (n := Z.of_nat (length vs)) in *.
    assert (Hn : 0 <= n) by (subst n; lia).
    split; intros Hmode.
    + destruct (Hpage Hmode) as [Hc1 Hg1]. destruct (Hpage' Hmode) as [-> ->].
      rewrite Hc1, Hg1. split; [|reflexivity].
      rewrite Z.add_mod_idemp_l by lia. f_equal. lia.
    + destruct (Hvert Hmode) as [Hg1 Hc1]. destruct (Hvert' Hmode) as [-> ->].
      rewrite Hg1, Hc1. split.
      * rewrite Z.add_mod_idemp_l by lia. f_equal. lia.
      * destruct (Z.gtb_spec (active_page s + 1) 15) as [Hgt|Hle].
        -- assert (Hp16 : active_page s + 1 = 16) by lia.
           rewrite Hp16. change (16 mod 16) with 0. rewrite Z.add_0_l.
           rewrite Z.add_mod_idemp_l by lia.
           replace (active_page s + (1 + n)) with (n + 1 * 16) by lia.
           rewrite Z.div_add by lia. f_equal. lia.
        -- rewrite (Z.mod_small (active_page s + 1)) by lia.
           f_equal. f_equal. f_equal. lia.
Qed.

(** ** The frame as a function of the registers *)

Lemma rendered_pixel s r x y :
  wf_state s -> panel_128 s -> sh1107_update_buffer s = Some r ->
  0 <= x < 128 -> 0 <= y < 128 ->
  buffer_read32 (framebuffer r) ((y * 128 + x) * 4) = Some (spec_output_pixel s x y).
Proof.
  intros Hwf Hp Hr Hx Hy.
  destruct (sh1107_update_buffer_frame s Hwf Hp) as (fb' & Hr' & Hf).
  rewrite Hr in Hr'. injection Hr' as ->.
  replace (framebuffer (set_updated false (set_framebuffer fb' s))) with fb'
    by (destruct s; reflexivity).
  pose proof (frame_prefix_read32 s fb' x y Hp Hx Hy Hf) as H.
  destruct Hp as [Hw _]. rewrite Hw in H. exact H.
Qed.

(** X11. While the display is off the render leaves every pixel of the
    frame dark, whatever the display RAM and the invert flag hold. *)
Theorem display_off_renders_dark (s : sh1107_state_t) (x y : Z) :
  wf_state s -> panel_128 s -> display_on s = false ->
  0 <= x < 128 -> 0 <= y < 128 ->
  exists r,
    sh1107_update_buffer s = Some r
    /\ buffer_read32 (framebuffer r) ((y * 128 + x) * 4) = Some 0.
Proof.
  intros Hwf Hp Hoff Hx Hy.
  destruct (sh1107_update_buffer_total s Hwf Hp) as [r Hr].
  exists r. split; [exact Hr|].
  rewrite (rendered_pixel s r x y Hwf Hp Hr Hx Hy).
  unfold spec_output_pixel. rewrite Hoff, andb_false_r. reflexivity.
Qed.

Lemma spec_bit_ext s t x y :
  render_inputs s = render_inputs t -> spec_bit s x y = spec_bit t x y.
Proof.
  intros Hin. unfold render_inputs in Hin.
  injection Hin as Hw Hh Hxo Hpx Hsl Hrr Hdon.
  unfold spec_bit, spec_source_index, spec_virtual_y, spec_scroll_y.
  rewrite Hw, Hh, Hxo, Hpx, Hsl, Hrr. reflexivity.
Qed.

(** X12. With the display on, flipping the invert flag complements the
    frame: at every pixel the two renders give 0 and 0xFFFFFFFF, one
    each. *)
Theorem invert_complements_frame (s : sh1107_state_t) (x y : Z) :
  wf_state s -> panel_128 s -> display_on s = true ->
  0 <= x < 128 -> 0 <= y < 128 ->
  exists r r' p p',
    sh1107_update_buffer s = Some r
    /\ sh1107_update_buffer (set_invert (negb (invert s)) s) = Some r'
    /\ buffer_read32 (framebuffer r) ((y * 128 + x) * 4) = Some p
    /\ buffer_read32 (framebuffer r') ((y * 128 + x) * 4) = Some p'
    /\ p + p' = 0xFFFFFFFF
    /\ (p = 0 \/ p = 0xFFFFFFFF).
Proof.
  intros Hwf Hp Hon Hx Hy.
  set (t := set_invert (negb (invert s)) s) in *.
  assert (Ht : wf_state t /\ panel_128 t /\ render_inputs t = render_inputs s
               /\ invert t = negb (invert s) /\ display_on t = true).
  { subst t. destruct Hwf as [W1 W2 W3 W4 W5 W6 W7 W8]. destruct Hp as [P1 P2].
    unfold panel_128, render_inputs. destruct_state s. simpl in *.
    split; [constructor; simpl; assumption|]. subst. repeat split. }
  destruct Ht as (Hwft & Hpt & Hin & Hinv & Hont).
  destruct (sh1107_update_buffer_total s Hwf Hp) as [r Hr].
  destruct (sh1107_update_buffer_total t Hwft Hpt) as [r' Hr'].
  exists r, r', (spec_output_pixel s x y), (spec_output_pixel t x y).
  split; [exact Hr|]. split; [exact Hr'|].
  split; [apply rendered_pixel; assumption|].
  split; [apply rendered_pixel; assumption|].
  unfold spec_output_pixel, spec_lit.
  rewrite (spec_bit_ext t s x y Hin), Hinv, Hon, Hont.
  destruct (spec_bit s x y), (invert s); simpl; split; auto.
Qed.

(** X13. Scrolling and row reversal only permute the rows of the frame:
    row y of the rendered frame is row (y + start_line) mod 128 of the
    unscrolled, unreversed frame, or row (127 - y - start_line) mod 128 of
    it when the rows are reversed. *)
Theorem scroll_and_reverse_permute_rows (s : sh1107_state_t) (x y : Z) :
  wf_state s -> panel_128 s ->
  0 <= x < 128 -> 0 <= y < 128 ->
  let row := (if reverse_rows s then 127 - (y + start_line s) else y + start_line s)
               mod 128 in
  exists r r0,
    sh1107_update_buffer s = Some r
    /\ sh1107_update_buffer (set_start_line 0 (set_reverse_rows false s)) = Some r0
    /\ 0 <= row < 128
    /\ buffer_read32 (framebuffer r) ((y * 128 + x) * 4)
       = buffer_read32 (framebuffer r0) ((row * 128 + x) * 4).
Proof.
  intros Hwf Hp Hx Hy row.
  assert (Hrow : 0 <= row < 128) by (subst row; apply Z.mod_pos_bound; lia).
  set (t := set_start_line 0 (set_reverse_rows false s)) in *.
  assert (Ht : wf_state t /\ panel_128 t
               /\ (width t, height t, x_offset t, pixels t, invert t, display_on t)
                  = (width s, height s, x_offset s, pixels s, invert s, display_on s)
               /\ start_line t = 0 /\ reverse_rows t = false).
  { subst t. destruct Hwf as [W1 W2 W3 W4 W5 W6 W7 W8]. destruct Hp as [P1 P2].
    unfold panel_128. destruct_state s. simpl in *.
    split; [constructor; simpl; (assumption || lia)|]. subst. repeat split. }
  destruct Ht as (Hwft & Hpt & Hsame & Hsl & Hrr).
  destruct (sh1107_update_buffer_total s Hwf Hp) as [r Hr].
  destruct (sh1107_update_buffer_total t Hwft Hpt) as [r0 Hr0].
  exists r, r0. split; [exact Hr|]. split; [exact Hr0|]. split; [exact Hrow|].
  rewrite (rendered_pixel s r x y Hwf Hp Hr Hx Hy).
  rewrite (rendered_pixel t r0 x row Hwft Hpt Hr0 Hx Hrow). f_equal.
  injection Hsame as Hw Hh Hxo Hpx Hinv Hon.
  destruct Hp as [Pw Ph].
  assert (Hv : spec_virtual_y s y = row).
  { unfold spec_virtual_y, spec_scroll_y. rewrite Pw, Ph. reflexivity. }
  assert (Hvt : spec_virtual_y t row = row).
  { unfold spec_virtual_y, spec_scroll_y. rewrite Hrr, Hsl, Hw, Pw, Z.add_0_r.
    apply Z.mod_small. exact Hrow. }
  unfold spec_output_pixel, spec_lit, spec_bit, spec_source_index.
  rewrite Hv, Hvt, Hw, Hxo, Hpx, Hinv, Hon. reflexivity.
Qed.

Lemma process_command_render_inputs s :
  frame_opcode (command_at s 0) = false ->
  render_inputs (sh1107_process_command s) = render_inputs s
  /\ invert (sh1107_process_command s) = invert s.
Proof.
  unfold sh1107_process_command, command_switch, print_unknown, sh1107_schedule_update,
    render_inputs, frame_opcode.
  generalize (command_at s 0) (command_at s 1). intros c p.
  unfold_opcodes. destruct_state s.
  repeat (case_compare; simpl); intros Hf; try discriminate Hf;
    destruct don, upd; split; reflexivity.
Qed.

(** X14. Only display on/off, normal/invert, COM scan direction and display
    start line change what is rendered: interpreting any other opcode
    (contrast, clock divider, precharge, addressing mode, segment remap,
    column and page address, the not-implemented and unknown ones) leaves
    every byte of the rendered frame as it was. *)
Theorem stored_registers_do_not_change_frame (s : sh1107_state_t) :
  wf_state s -> panel_128 s -> cursor_invariant s ->
  frame_opcode (command_at s 0) = false ->
  exists r r',
    sh1107_update_buffer s = Some r
    /\ sh1107_update_buffer (sh1107_process_command s) = Some r'
    /\ forall k, 0 <= k < FRAME_BYTES -> framebuffer r' !! k = framebuffer r !! k.
Proof.
  intros Hwf Hp Hcur Hop.
  destruct (process_command_invariant s Hwf Hp Hcur) as (Hwf' & Hp' & _).
  destruct (process_command_render_inputs s Hop) as [Hin Hinv].
  destruct (sh1107_update_buffer_total s Hwf Hp) as [r Hr].
  destruct (sh1107_update_buffer_total _ Hwf' Hp') as [r' Hr'].
  exists r, r'. split; [exact Hr|]. split; [exact Hr'|]. intros k Hk.
  rewrite (rendered_frame _ r' k Hwf' Hp' Hr' Hk), (rendered_frame s r k Hwf Hp Hr Hk).
  f_equal. apply spec_frame_byte_ext; [exact Hin | left; exact Hinv].
Qed.

(** ** The renderer writes the frame and nothing else *)

Lemma buffer_write_lookup_ge fb data : forall offset k,
  offset + Z.of_nat (length data) <= k -> buffer_write fb offset data !! k = fb !! k.
Proof.
  revert fb. induction data as [|b data IH]; intros fb offset k Hk; simpl.
  - reflexivity.
  - simpl length in Hk. rewrite IH by lia. apply lookup_insert_ne. lia.
Qed.

Lemma update_rows_outside s fb :
  wf_state s -> panel_128 s ->
  exists fb', update_rows s fb = Some fb'
    /\ forall k, k < 0 \/ FRAME_BYTES <= k -> fb' !! k = fb !! k.
Proof.
  intros Hwf Hp.
  set (J := fun (_ : Z) (fb' : gmap Z Z) =>
              forall k, k < 0 \/ FRAME_BYTES <= k -> fb' !! k = fb !! k).
  assert (Hpixel : forall y x fb1, 0 <= y < 128 -> 0 <= x < 128 -> J x fb1 ->
            exists fb2, update_pixel s y x fb1 = Some fb2 /\ J (x + 1) fb2).
  { intros y x fb1 Hy Hx HJ. rewrite update_pixel_spec by assumption.
    eexists. split; [reflexivity|]. intros k Hk.
    destruct Hp as [Hw _]. rewrite Hw. unfold FRAME_BYTES in Hk.
    destruct Hk as [Hk|Hk].
    - rewrite buffer_write_lookup_lt by lia. apply HJ. left. exact Hk.
    - rewrite buffer_write_lookup_ge by (simpl length; lia). apply HJ. right. exact Hk. }
  assert (Hrow : forall y fb1, 0 <= y < 128 -> J y fb1 ->
            exists fb2, update_row s y fb1 = Some fb2 /\ J (y + 1) fb2).
  { intros y fb1 Hy HJ. unfold update_row. rewrite (render_width_128 s Hp).
    apply (for_u8_invariant J (update_pixel s y) 128 ltac:(lia)
             (fun x fb2 Hx H => Hpixel y x fb2 Hy Hx H) 128%nat U8_LOOP_FUEL 0 fb1);
      [lia | reflexivity | unfold U8_LOOP_FUEL; lia | exact HJ]. }
  unfold update_rows. rewrite (render_height_128 s Hp).
  apply (for_u8_invariant J (update_row s) 128 ltac:(lia)
           (fun y fb2 Hy H => Hrow y fb2 Hy H) 128%nat U8_LOOP_FUEL 0 fb);
    [lia | reflexivity | unfold U8_LOOP_FUEL; lia | intros k _; reflexivity].
Qed.

(** X15. A render on the 128 x 128 panel returns, writes every byte of the
    65536-byte frame and no byte of the pixel sink outside it, and changes
    nothing of the chip but the pending flag, which it clears. *)
Theorem render_writes_the_frame_only (s : sh1107_state_t) :
  wf_state s -> panel_128 s ->
  exists r,
    sh1107_update_buffer s = Some r
    /\ r = set_updated false (set_framebuffer (framebuffer r) s)
    /\ (forall k, k < 0 \/ FRAME_BYTES <= k -> framebuffer r !! k = framebuffer s !! k)
    /\ (forall k, 0 <= k < FRAME_BYTES -> is_Some (framebuffer r !! k)).
Proof.
  intros Hwf Hp.
  destruct (sh1107_update_buffer_total s Hwf Hp) as [r Hr].
  exists r. split; [exact Hr|].
  destruct (update_rows_outside s (framebuffer s) Hwf Hp) as (fb' & Hrows & Hout).
  pose proof Hr as Hr2. unfold sh1107_update_buffer in Hr2. rewrite Hrows in Hr2.
  injection Hr2 as <-.
  replace (framebuffer (set_updated false (set_framebuffer fb' s))) with fb'
    by (destruct s; reflexivity).
  split; [destruct s; reflexivity|]. split; [exact Hout|].
  intros k Hk.
  pose proof (rendered_frame s _ k Hwf Hp Hr Hk) as H.
  replace (framebuffer (set_updated false (set_framebuffer fb' s))) with fb' in H
    by (destruct s; reflexivity).
  rewrite H. eexists. reflexivity.
Qed.

(** ** From a data byte to the panel *)

(** X10. With no scroll and no row reversal, a data byte written at the
    cursor shows, after the next render, as eight vertically stacked
    pixels: bit i of the byte is the pixel in row 8 * page + i of the
    panel column (effective column - x_offset) mod 128, lit when the bit
    differs from invert and the display is on. *)
Theorem data_byte_shows_as_column_of_eight (s : sh1107_state_t) (value i : Z) :
  wf_state s -> panel_128 s -> cursor_invariant s ->
  start_line s = 0 -> reverse_rows s = false -> 0 <= i < 8 ->
  let column :=
    if segment_remap s then 127 - active_column s else active_column s in
  let x := (column - x_offset s) mod 128 in
  let y := 8 * active_page s + i in
  exists s1 r,
    sh1107_process_data s value = Some s1
    /\ sh1107_update_buffer s1 = Some r
    /\ buffer_read32 (framebuffer r) ((y * 128 + x) * 4)
       = Some (if xorb (Z.testbit value i) (invert s) && display_on s
               then 0xFFFFFFFF else 0).
Proof.
  intros Hwf Hp Hcur Hsl Hrr Hi column x y.
  destruct (data_writer_defined s value Hwf Hp Hcur) as [s1 Hs1].
  destruct (process_data_invariant s value s1 Hwf Hp Hcur Hs1) as (Hwf1 & Hp1 & _).
  destruct (data_write_views s value s1 Hs1) as (Hc & _).
  destruct (process_data_trigger s value s1 Hs1) as (Hpx & _).
  destruct (sh1107_update_buffer_total s1 Hwf1 Hp1) as [r Hr].
  destruct Hcur as [Hac Hap]. pose proof Hp as [Hw Hh]. rewrite Hw in Hac.
  assert (Hx : 0 <= x < 128) by (subst x; apply Z.mod_pos_bound; lia).
  assert (Hy : 0 <= y < 128) by (subst y; lia).
  assert (Hcol : 0 <= column < 128) by (subst column; destruct (segment_remap s); lia).
  exists s1, r. split; [exact Hs1|]. split; [exact Hr|].
  rewrite (rendered_pixel s1 r x y Hwf1 Hp1 Hr Hx Hy). f_equal.
  destruct (data_target_spec s Hwf ltac:(lia) ltac:(lia) ltac:(lia)) as [Htgt Hrange].
  rewrite Hw in Htgt. replace (128 - 1 - active_column s) with (127 - active_column s) in Htgt by lia.
  fold column in Htgt.
  unfold configuration in Hc.
  assert (Hf : invert s1 = invert s /\ reverse_rows s1 = reverse_rows s
               /\ display_on s1 = display_on s /\ start_line s1 = start_line s
               /\ x_offset s1 = x_offset s /\ width s1 = 128 /\ height s1 = 128)
    by (repeat split; congruence).
  destruct Hf as (Hinv & Hrr1 & Hon & Hsl1 & Hxo & Hw1 & Hh1).
  assert (Hv : spec_virtual_y s1 y = y).
  { unfold spec_virtual_y, spec_scroll_y. rewrite Hrr1, Hrr, Hsl1, Hsl, Hw1, Z.add_0_r.
    apply Z.mod_small. exact Hy. }
  assert (Hsrc : spec_source_index s1 x y = data_target s).
  { unfold spec_source_index. rewrite Hv, Hw1, Hxo, Htgt.
    replace (y / 8) with (active_page s)
      by (subst y; apply (Z.div_unique _ 8 _ i); lia).
    f_equal. subst x. rewrite Z.add_mod_idemp_l by lia.
    replace (column - x_offset s + x_offset s) with column by lia.
    apply Z.mod_small. exact Hcol. }
  assert (Hbit : spec_bit s1 x y = Z.testbit value i).
  { unfold spec_bit. rewrite Hsrc, Hv, Hpx.
    rewrite list_lookup_insert_eq
      by (rewrite (wf_pixels s Hwf); change PIXELS_SIZE with 2048; lia).
    simpl. f_equal. subst y. symmetry. apply (Z.mod_unique _ 8 (active_page s) i); lia. }
  unfold spec_output_pixel, spec_lit. rewrite Hbit, Hinv, Hon. reflexivity.
Qed.

(** ** Timer requests over a run *)

Lemma process_command_timer s :
  let s' := sh1107_process_command s in
  (updated s', update_timer s') = (updated s, update_timer s)
  \/ (updated s = false /\ updated s' = true
      /\ update_timer s' = (16667, false) :: update_timer s).
Proof.
  unfold sh1107_process_command, command_switch, print_unknown, sh1107_schedule_update.
  generalize (command_at s 0) (command_at s 1). intros c p.
  unfold_opcodes. destruct_state s.
  repeat (case_compare; simpl); destruct don, upd; simpl; auto.
Qed.

Lemma step_settled s e s' :
  step s e = Some s' ->
  settled_requests s' <= settled_requests s + timer_fires [e].
Proof.
  assert (Hsame : forall t : sh1107_state_t,
            (updated t, update_timer t) = (updated s, update_timer s) ->
            settled_requests t <= settled_requests s + 0).
  { intros t Heq. injection Heq as Hu Ht. unfold settled_requests. rewrite Hu, Ht. lia. }
  assert (Harm : forall t : sh1107_state_t,
            updated s = false -> updated t = true ->
            update_timer t = (16667, false) :: update_timer s ->
            settled_requests t <= settled_requests s + 0).
  { intros t H1 H2 H3. unfold settled_requests. rewrite H1, H2, H3. simpl length. simpl Z.b2z. lia. }
  destruct e as [|value|]; simpl timer_fires; simpl step.
  - intros [= <-]. apply Hsame. destruct s; reflexivity.
  - unfold sh1107_i2c_write.
    destruct (control_byte s).
    + simpl. intros [= <-]. apply Hsame. destruct s; reflexivity.
    + destruct (command_mode s).
      * destruct (current_command s !! Z.to_nat (current_command_index s)); [|discriminate].
        set (s1 := set_current_command _ s).
        assert (H1 : (updated s1, update_timer s1) = (updated s, update_timer s))
          by (subst s1; destruct s; reflexivity).
        destruct (lookup_command_length s1 value) as [s2|] eqn:Hlook; [|discriminate].
        assert (H2 : (updated s2, update_timer s2) = (updated s, update_timer s)).
        { unfold lookup_command_length in Hlook.
          destruct (negb _); [destruct (multi_byte_commands !! _); [|discriminate]|];
            injection Hlook as <-; rewrite <- H1; destruct s1; reflexivity. }
        set (s3 := set_current_command_index _ s2).
        assert (H3 : (updated s3, update_timer s3) = (updated s, update_timer s))
          by (rewrite <- H2; subst s3; destruct s2; reflexivity).
        destruct (_ <? _).
        -- simpl. intros [= <-]. apply Hsame. exact H3.
        -- intros Hs'. assert (Hs : s' = fst (end_of_byte (sh1107_process_command s3)))
             by (simpl in Hs'; injection Hs' as <-; reflexivity).
           clear Hs'. injection H3 as H3u H3t.
           destruct (end_of_byte_views (sh1107_process_command s3)) as (Hd & _).
           unfold device_view in Hd.
           destruct (process_command_timer s3) as [Heq | (Hf & Ht & Htm)].
           ++ apply Hsame. rewrite Hs. f_equal; congruence.
           ++ apply Harm; rewrite ?Hs; congruence.
      * destruct (sh1107_process_data s value) as [s1|] eqn:Hdata; [|discriminate].
        intros Hs'. assert (Hs : s' = fst (end_of_byte s1))
          by (simpl in Hs'; injection Hs' as <-; reflexivity).
        clear Hs'.
        destruct (end_of_byte_views s1) as (Hd & _). unfold device_view in Hd.
        destruct (process_data_trigger s value s1 Hdata) as (_ & Hu & Ht).
        destruct (updated s) eqn:Hupd.
        -- apply Hsame. rewrite Hs. f_equal; congruence.
        -- apply Harm; rewrite ?Hs; congruence.
  - unfold sh1107_update_buffer.
    destruct (update_rows s (framebuffer s)) as [fb'|]; [|discriminate].
    intros [= <-]. unfold settled_requests.
    replace (update_timer (set_updated false (set_framebuffer fb' s))) with (update_timer s)
      by (destruct s; reflexivity).
    replace (updated (set_updated false (set_framebuffer fb' s))) with false
      by (destruct s; reflexivity).
    destruct (updated s); simpl; lia.
Qed.

(** X19. Over any run of callbacks the chip arms the render timer at most
    once more than the renders fired in that run (and no more often than
    they fired when a request was already pending at the start): requests
    are coalesced, never queued. *)
Theorem timer_requests_bounded_by_renders (es : list host_event) :
  forall s s' : sh1107_state_t,
    run s es = Some s' ->
    Z.of_nat (length (update_timer s'))
    <= Z.of_nat (length (update_timer s)) + timer_fires es
       + (if updated s then 0 else 1)
    /\ settled_requests s' <= settled_requests s + timer_fires es.
Proof.
  assert (Hmain : forall s s', run s es = Some s' ->
            settled_requests s' <= settled_requests s + timer_fires es).
  { induction es as [|e es IH]; intros s s' Hrun; simpl in Hrun.
    - injection Hrun as <-. simpl. lia.
    - destruct (step s e) as [s1|] eqn:Hstep; [|discriminate].
      pose proof (step_settled s e s1 Hstep) as H1.
      pose proof (IH s1 s' Hrun) as H2.
      assert (Hf : timer_fires (e :: es) = timer_fires [e] + timer_fires es)
        by (destruct e; simpl; lia).
      rewrite Hf. lia. }
  intros s s' Hrun. pose proof (Hmain s s' Hrun) as H.
  split; [|exact H].
  unfold settled_requests in H. destruct (updated s), (updated s'); simpl in H; lia.
Qed.

(** ** Single-shot transfers *)

Lemma control_byte_write s value :
  control_byte s = true ->
  sh1107_i2c_write s value
  = Some (set_control_byte false
            (set_continuous_mode (negb (Z.testbit value 7))
               (set_command_mode (negb (Z.testbit value 6)) s)), true).
Proof.
  intros Hcb. unfold sh1107_i2c_write. rewrite Hcb.
  destruct (truthy_land_mask value) as [-> ->]. reflexivity.
Qed.

(** X2. In single-shot data mode only the first of two consecutive bytes
    reaches the display RAM: the data writer asks for a control byte
    again, so the second byte is decoded as one and changes neither the
    display RAM nor the cursor. *)
Theorem single_shot_second_byte_is_control (s : sh1107_state_t) (v1 v2 : Z) :
  wf_state s -> panel_128 s -> cursor_invariant s ->
  protocol_view s = (false, false, false) ->
  exists s1 s2,
    sh1107_i2c_write s v1 = Some (s1, true)
    /\ sh1107_i2c_write s1 v2 = Some (s2, true)
    /\ pixels s1 = <[Z.to_nat (data_target s) := v1]> (pixels s)
    /\ pixels s2 = pixels s1
    /\ cursor s2 = cursor s1
    /\ protocol_view s2 = (false, negb (Z.testbit v2 7), negb (Z.testbit v2 6)).
Proof.
  intros Hwf Hp Hcur Hpr.
  destruct (data_writer_defined s v1 Hwf Hp Hcur) as [t Ht].
  destruct (data_write_views s v1 t Ht) as (_ & _ & Hprt & _).
  destruct (process_data_trigger s v1 t Ht) as (Hpx & _).
  destruct (end_of_byte_views t) as (Hd & _ & Hm & Hcb & Hack).
  rewrite Hpr in Hprt.
  assert (Hflags : control_byte s = false /\ command_mode s = false
                   /\ continuous_mode t = false)
    by (unfold protocol_view in *; repeat split; congruence).
  destruct Hflags as (Hcbs & Hcms & Hcot). rewrite Hcot in Hcb.
  exists (fst (end_of_byte t)). eexists.
  split; [unfold sh1107_i2c_write; rewrite Hcbs, Hcms, Ht;
          destruct (end_of_byte t); simpl in *; congruence|].
  split; [apply control_byte_write; exact Hcb|].
  unfold device_view in Hd.
  split; [congruence|].
  generalize (fst (end_of_byte t)). intros u. destruct_state u.
  repeat split.
Qed.

(** ** A two-byte opcode without a branch *)

(** X18. The DC-DC opcode 0xad is assembled with one parameter byte, as the
    table declares, and then reported as unknown: the two bytes leave one
    diagnostic on the console and change no register, cursor, display RAM
    cell or redraw state. *)
Theorem dcdc_takes_a_parameter_and_is_unknown (s : sh1107_state_t) (p : Z) :
  wf_state s -> control_byte s = false -> command_mode s = true ->
  current_command_index s = 0 ->
  exists s',
    run s [I2cWrite CMD_DCDC; I2cWrite p] = Some s'
    /\ console s' = console s ++ [CMD_DCDC]
    /\ configuration s' = configuration s
    /\ (cursor s', pixels s', updated s', update_timer s')
       = (cursor s, pixels s, updated s, update_timer s)
    /\ current_command_index s' = 0.
Proof.
  intros Hwf Hcb Hcm Hidx.
  run_two_bytes s. destruct cm; repeat split.
Qed.

(** ** A burst in page mode fills consecutive columns *)

Lemma page_burst_step s value :
  data_burst_ready s -> memory_mode s = CMD_SET_PAGE_ADDR_MODE ->
  segment_remap s = false ->
  exists s1,
    step s (I2cWrite value) = Some s1
    /\ data_burst_ready s1
    /\ memory_mode s1 = CMD_SET_PAGE_ADDR_MODE /\ segment_remap s1 = false
    /\ active_page s1 = active_page s
    /\ active_column s1 = (active_column s + 1) mod 128
    /\ pixels s1
       = <[Z.to_nat (active_page s * 128 + active_column s) := value]> (pixels s)
    /\ (Z.to_nat (active_page s * 128 + active_column s) < length (pixels s))%nat.
Proof.
  intros Hready Hmode Hremap.
  destruct (data_burst_step s value Hready) as (s1 & Hstep & Hdata & Hready1 & Hmm & Hsr).
  destruct Hready as (Hwf & Hp & Hcur & Hpr).
  destruct (process_data_cursor s value s1 Hwf Hp Hcur Hdata) as (Hpx & Hpage & _).
  destruct (Hpage Hmode) as [Hc1 Hg1].
  destruct Hcur as [Hc Hg]. pose proof Hp as [Hw Hh]. rewrite Hw in Hc.
  destruct (data_target_spec s Hwf ltac:(lia) ltac:(lia) ltac:(lia)) as [Htgt Hrange].
  rewrite Hremap, Hw in Htgt. rewrite Htgt in Hpx, Hrange.
  exists s1.
  split; [exact Hstep|]. split; [exact Hready1|]. split; [congruence|].
  split; [congruence|]. split; [exact Hg1|]. split; [exact Hc1|]. split; [exact Hpx|].
  rewrite (wf_pixels s Hwf). change PIXELS_SIZE with 2048. lia.
Qed.

(** X8. In page mode without segment remap, a continuous burst that fits
    in the rest of the row stores its i-th byte at cell
    page * 128 + column + i and leaves every other cell of the display RAM
    as it was. *)
Theorem page_mode_burst_fills_row (vs : list Z) : forall s : sh1107_state_t,
  data_burst_ready s -> memory_mode s = CMD_SET_PAGE_ADDR_MODE ->
  segment_remap s = false ->
  active_column s + Z.of_nat (length vs) <= 128 ->
  let base := Z.to_nat (active_page s * 128 + active_column s) in
  exists s',
    run s (map I2cWrite vs) = Some s'
    /\ (forall (i : nat) v, vs !! i = Some v -> pixels s' !! (base + i)%nat = Some v)
    /\ (forall j : nat, (j < base \/ base + length vs <= j)%nat ->
                        pixels s' !! j = pixels s !! j).
Proof.
  induction vs as [|v vs IH]; intros s Hready Hmode Hremap Hlen base.
  - exists s. split; [reflexivity|]. split; [intros i v Hi; discriminate Hi|].
    intros j _. reflexivity.
  - destruct (page_burst_step s v Hready Hmode Hremap)
      as (s1 & Hstep & Hready1 & Hmode1 & Hremap1 & Hg1 & Hc1 & Hpx1 & Hin).
    fold base in Hpx1, Hin.
    pose proof Hready as (Hwf & Hp & [Hc Hg] & Hpr).
    pose proof Hp as [Hw _]. rewrite Hw in Hc.
    simpl length in Hlen.
    destruct vs as [|v2 vs'].
    + exists s1. split; [simpl map; rewrite (run_cons s _ _ s1 Hstep); reflexivity|].
      split.
      * intros i w Hi. destruct i as [|i]; [|discriminate Hi].
        injection Hi as <-. rewrite Nat.add_0_r, Hpx1.
        apply list_lookup_insert_eq. exact Hin.
      * intros j Hj. rewrite Hpx1. apply list_lookup_insert_ne. simpl length in Hj. lia.
    + simpl length in Hlen.
      assert (Hc1' : active_column s1 = active_column s + 1)
        by (rewrite Hc1; apply Z.mod_small; lia).
      destruct (IH s1 Hready1 Hmode1 Hremap1) as (s' & Hrun & Hfill & Hrest).
      { rewrite Hc1'. simpl length. lia. }
      assert (Hbase : Z.to_nat (active_page s1 * 128 + active_column s1) = S base)
        by (rewrite Hg1, Hc1'; subst base; lia).
      rewrite Hbase in Hfill, Hrest.
      exists s'. split; [rewrite map_cons, (run_cons s _ _ s1 Hstep); exact Hrun|].
      split.
      * intros i w Hi. destruct i as [|i].
        -- injection Hi as <-. rewrite Nat.add_0_r.
           rewrite Hrest by lia. rewrite Hpx1.
           apply list_lookup_insert_eq. exact Hin.
        -- replace (base + S i)%nat with (S base + i)%nat by lia.
           apply Hfill. exact Hi.
      * intros j Hj. simpl length in Hj.
        rewrite Hrest by (simpl length; lia).
        rewrite Hpx1. apply list_lookup_insert_ne. lia.
Qed.

(** ** Runs from construction *)

(** X20. From construction on the 128 x 128 panel, whatever the memory held
    before, every defined run of callbacks leaves the state well formed
    with the cursor inside the display RAM, the command index inside the
    command buffer and the next data store inside the pixels array. *)
Theorem defined_runs_keep_invariants (memory s : sh1107_state_t) (es : list host_event) :
  wf_state memory -> Forall wf_event es ->
  run (chip_init memory 128 128) es = Some s ->
  wf_state s /\ panel_128 s /\ cursor_invariant s
  /\ 0 <= current_command_index s < COMMAND_SIZE
  /\ is_Some (pixels s !! Z.to_nat (data_target s)).
Proof.
  intros Hwf Hes Hrun.
  destruct (chip_init_invariant memory Hwf) as (H1 & H2 & H3 & H4).
  destruct (run_preserves_invariant es _ s H1 H2 H3 H4 Hes Hrun)
    as (Hwf' & Hp' & Hcur & Hasm & _).
  split; [exact Hwf'|]. split; [exact Hp'|]. split; [exact Hcur|].
  split.
  - pose proof (wf_current_command_index s Hwf').
    destruct Hasm as [-> | [Hlt Hle]]; change COMMAND_SIZE with 8 in *; lia.
  - destruct Hcur as [Hc Hg]. pose proof Hp' as [Hw _]. rewrite Hw in Hc.
    destruct (data_target_spec s Hwf' ltac:(lia) ltac:(lia) ltac:(lia)) as [_ Hr].
    apply lookup_lt_is_Some. rewrite (wf_pixels s Hwf').
    change PIXELS_SIZE with 2048. lia.
Qed.

(** X21. From construction on the 128 x 128 panel, every run of connects,
    renders and written bytes up to 0xdc is defined: no callback then
    reads or writes outside an array. *)
Theorem bytes_inside_the_table_are_safe (memory : sh1107_state_t) (es : list host_event) :
  wf_state memory -> Forall table_event es ->
  is_Some (run (chip_init memory 128 128) es).
Proof.
  intros Hwf Hes.
  destruct (chip_init_invariant memory Hwf) as (H1 & H2 & H3 & H4).
  revert H1 H2 H3 H4. generalize (chip_init memory 128 128). clear Hwf memory.
  induction es as [|e es IH]; intros s H1 H2 H3 H4; simpl.
  - eexists. reflexivity.
  - apply Forall_cons in Hes. destruct Hes as [He Hes].
    assert (Hev : wf_event e) by (destruct e; simpl in *; lia || exact I).
    destruct (step_defined s e H1 H2 H3 H4 Hev) as [s1 Hs1].
    { intros value -> _ _ _. simpl in He. lia. }
    rewrite Hs1.
    destruct (step_preserves_invariant s e s1 H1 H2 H3 H4 Hev Hs1)
      as (K1 & K2 & K3 & K4 & _).
    apply IH; assumption.
Qed.


(** ** The properties above at concrete states *)

Ltac closed_eq := vm_compute; reflexivity.
Ltac closed_panel := split; vm_compute; reflexivity.
Ltac closed_range := vm_compute; repeat split; discriminate || reflexivity.
Ltac closed_ready := split; [closed_wf | split; [closed_panel | split; [closed_range | closed_eq]]].

Lemma control_byte_is_decoded_witness :
  exists s',
    sh1107_i2c_write connected_chip 0x40 = Some (s', true)
    /\ protocol_view s' = (false, negb (Z.testbit 0x40 7), negb (Z.testbit 0x40 6))
    /\ device_view s' = device_view connected_chip
    /\ assembler_view s' = assembler_view connected_chip.
Proof. apply (control_byte_is_decoded connected_chip 0x40). closed_eq. Defined.

Lemma not_implemented_changes_nothing_witness :
  sh1107_process_command (assembled CMD_SET_COM_PINS page5_chip)
  = set_current_command_index 0 (assembled CMD_SET_COM_PINS page5_chip).
Proof.
  apply (not_implemented_changes_nothing (assembled CMD_SET_COM_PINS page5_chip)).
  left. closed_eq.
Defined.

Lemma data_write_touches_ram_and_cursor_only_witness :
  exists s',
    sh1107_i2c_write remapped_chip 0x3c = Some (s', true)
    /\ configuration s' = configuration remapped_chip
    /\ assembler_view s' = assembler_view remapped_chip
    /\ (framebuffer s', console s') = (framebuffer remapped_chip, console remapped_chip)
    /\ (continuous_mode s', command_mode s') = (continuous_mode remapped_chip, false)
    /\ control_byte s' = negb (continuous_mode remapped_chip)
    /\ updated s' = true
    /\ update_timer s'
       = if updated remapped_chip then update_timer remapped_chip
         else (16667, false) :: update_timer remapped_chip.
Proof.
  apply (data_write_touches_ram_and_cursor_only remapped_chip 0x3c);
    [closed_wf | closed_panel | closed_range | closed_eq | closed_eq].
Defined.

Lemma first_byte_of_two_only_buffers_witness :
  exists s',
    sh1107_i2c_write page5_chip CMD_SET_PRECHARGE = Some (s', true)
    /\ device_view s' = device_view page5_chip
    /\ protocol_view s' = protocol_view page5_chip
    /\ (current_command_index s', current_command_length s') = (1, 2)
    /\ command_at s' 0 = CMD_SET_PRECHARGE.
Proof.
  apply (first_byte_of_two_only_buffers page5_chip CMD_SET_PRECHARGE);
    [closed_wf | closed_eq ..].
Defined.

Lemma parameter_commands_set_registers_witness :
  exists s', run page5_chip [I2cWrite CMD_SET_PRECHARGE; I2cWrite 0xf1] = Some s'
     /\ configuration s'
        = configuration (set_phase2 (0xf1 / 16) (set_phase1 (0xf1 mod 16) page5_chip))
     /\ cursor s' = cursor page5_chip /\ pixels s' = pixels page5_chip
     /\ current_command_index s' = 0.
Proof.
  apply (parameter_commands_set_registers page5_chip 0xf1);
    [closed_wf | closed_eq | closed_eq | closed_eq | lia].
Defined.

Lemma reconnect_keeps_pending_command_witness :
  exists s',
    run page5_chip [I2cWrite CMD_SET_CONTRAST; I2cConnect; I2cWrite 0x00;
                    I2cWrite CMD_DISPLAY_ON] = Some s'
    /\ configuration s' = configuration (set_contrast CMD_DISPLAY_ON page5_chip)
    /\ cursor s' = cursor page5_chip /\ pixels s' = pixels page5_chip
    /\ current_command_index s' = 0.
Proof.
  apply (reconnect_keeps_pending_command page5_chip 0x00 CMD_DISPLAY_ON);
    [closed_wf | closed_eq ..].
Defined.

Lemma column_address_pair_selects_column_witness :
  active_column
    (sh1107_process_command
       (assembled (0x10 + 100 / 16)
          (sh1107_process_command (assembled (100 mod 16) page5_chip)))) = 100.
Proof.
  apply (column_address_pair_selects_column page5_chip 100); [closed_wf | lia].
Defined.

Lemma data_burst_moves_cursor_witness :
  exists s',
    run remapped_chip (map I2cWrite [1; 2; 3]) = Some s'
    /\ data_burst_ready s'
    /\ (memory_mode remapped_chip = CMD_SET_PAGE_ADDR_MODE ->
        active_column s' = (active_column remapped_chip + 3) mod 128
        /\ active_page s' = active_page remapped_chip)
    /\ (memory_mode remapped_chip <> CMD_SET_PAGE_ADDR_MODE ->
        active_page s' = (active_page remapped_chip + 3) mod 16
        /\ active_column s'
           = (active_column remapped_chip + (active_page remapped_chip + 3) / 16) mod 128).
Proof. apply (data_burst_moves_cursor [1; 2; 3] remapped_chip). closed_ready. Defined.

Lemma display_off_renders_dark_witness :
  exists r,
    sh1107_update_buffer page5_chip = Some r
    /\ buffer_read32 (framebuffer r) ((5 * 128 + 7) * 4) = Some 0.
Proof.
  apply (display_off_renders_dark page5_chip 7 5);
    [closed_wf | closed_panel | closed_eq | lia | lia].
Defined.

Lemma invert_complements_frame_witness :
  exists r r' p p',
    sh1107_update_buffer scrolled_chip = Some r
    /\ sh1107_update_buffer (set_invert (negb (invert scrolled_chip)) scrolled_chip) = Some r'
    /\ buffer_read32 (framebuffer r) ((5 * 128 + 7) * 4) = Some p
    /\ buffer_read32 (framebuffer r') ((5 * 128 + 7) * 4) = Some p'
    /\ p + p' = 0xFFFFFFFF
    /\ (p = 0 \/ p = 0xFFFFFFFF).
Proof.
  apply (invert_complements_frame scrolled_chip 7 5);
    [closed_wf | closed_panel | closed_eq | lia | lia].
Defined.

Lemma scroll_and_reverse_permute_rows_witness :
  let row := (if reverse_rows scrolled_chip then 127 - (5 + start_line scrolled_chip)
              else 5 + start_line scrolled_chip) mod 128 in
  exists r r0,
    sh1107_update_buffer scrolled_chip = Some r
    /\ sh1107_update_buffer (set_start_line 0 (set_reverse_rows false scrolled_chip)) = Some r0
    /\ 0 <= row < 128
    /\ buffer_read32 (framebuffer r) ((5 * 128 + 7) * 4)
       = buffer_read32 (framebuffer r0) ((row * 128 + 7) * 4).
Proof.
  apply (scroll_and_reverse_permute_rows scrolled_chip 7 5);
    [closed_wf | closed_panel | lia | lia].
Defined.

Lemma stored_registers_do_not_change_frame_witness :
  exists r r',
    sh1107_update_buffer (assembled CMD_SEG_REMAP_ON normal_chip) = Some r
    /\ sh1107_update_buffer
         (sh1107_process_command (assembled CMD_SEG_REMAP_ON normal_chip)) = Some r'
    /\ forall k, 0 <= k < FRAME_BYTES -> framebuffer r' !! k = framebuffer r !! k.
Proof.
  apply (stored_registers_do_not_change_frame (assembled CMD_SEG_REMAP_ON normal_chip));
    [closed_wf | closed_panel | closed_range | closed_eq].
Defined.

Lemma render_writes_the_frame_only_witness :
  exists r,
    sh1107_update_buffer scrolled_chip = Some r
    /\ r = set_updated false (set_framebuffer (framebuffer r) scrolled_chip)
    /\ (forall k, k < 0 \/ FRAME_BYTES <= k ->
                  framebuffer r !! k = framebuffer scrolled_chip !! k)
    /\ (forall k, 0 <= k < FRAME_BYTES -> is_Some (framebuffer r !! k)).
Proof.
  apply (render_writes_the_frame_only scrolled_chip); [closed_wf | closed_panel].
Defined.

Lemma data_byte_shows_as_column_of_eight_witness :
  let column :=
    if segment_remap lit_chip then 127 - active_column lit_chip
    else active_column lit_chip in
  let x := (column - x_offset lit_chip) mod 128 in
  let y := 8 * active_page lit_chip + 2 in
  (x, y) = (33, 2)
  /\ (if xorb (Z.testbit 0xa5 2) (invert lit_chip) && display_on lit_chip
      then 0xFFFFFFFF else 0) = 0xFFFFFFFF
  /\ (if xorb (Z.testbit 0xa5 1) (invert lit_chip) && display_on lit_chip
      then 0xFFFFFFFF else 0) = 0
  /\ exists s1 r,
       sh1107_process_data lit_chip 0xa5 = Some s1
       /\ sh1107_update_buffer s1 = Some r
       /\ buffer_read32 (framebuffer r) ((y * 128 + x) * 4)
          = Some (if xorb (Z.testbit 0xa5 2) (invert lit_chip) && display_on lit_chip
                  then 0xFFFFFFFF else 0).
Proof.
  split; [closed_eq|]. split; [closed_eq|]. split; [closed_eq|].
  apply (data_byte_shows_as_column_of_eight lit_chip 0xa5 2);
    [closed_wf | closed_panel | closed_range | closed_eq | closed_eq | lia].
Defined.

Lemma timer_requests_bounded_by_renders_witness :
  Z.of_nat (length (update_timer (chip_after [I2cConnect; I2cWrite 0x40; I2cWrite 1; I2cWrite 2])))
  <= Z.of_nat (length (update_timer data_chip))
     + timer_fires [I2cWrite 1; I2cWrite 2]
     + (if updated data_chip then 0 else 1)
  /\ settled_requests (chip_after [I2cConnect; I2cWrite 0x40; I2cWrite 1; I2cWrite 2])
     <= settled_requests data_chip + timer_fires [I2cWrite 1; I2cWrite 2].
Proof.
  apply (timer_requests_bounded_by_renders [I2cWrite 1; I2cWrite 2] data_chip
           (chip_after [I2cConnect; I2cWrite 0x40; I2cWrite 1; I2cWrite 2])).
  closed_eq.
Defined.

Lemma single_shot_second_byte_is_control_witness :
  exists s1 s2,
    sh1107_i2c_write single_shot_chip 0xaa = Some (s1, true)
    /\ sh1107_i2c_write s1 0x55 = Some (s2, true)
    /\ pixels s1 = <[Z.to_nat (data_target single_shot_chip) := 0xaa]> (pixels single_shot_chip)
    /\ pixels s2 = pixels s1
    /\ cursor s2 = cursor s1
    /\ protocol_view s2 = (false, negb (Z.testbit 0x55 7), negb (Z.testbit 0x55 6)).
Proof.
  apply (single_shot_second_byte_is_control single_shot_chip 0xaa 0x55);
    [closed_wf | closed_panel | closed_range | closed_eq].
Defined.

Lemma dcdc_takes_a_parameter_and_is_unknown_witness :
  exists s',
    run page5_chip [I2cWrite CMD_DCDC; I2cWrite 0x8b] = Some s'
    /\ console s' = console page5_chip ++ [CMD_DCDC]
    /\ configuration s' = configuration page5_chip
    /\ (cursor s', pixels s', updated s', update_timer s')
       = (cursor page5_chip, pixels page5_chip, updated page5_chip, update_timer page5_chip)
    /\ current_command_index s' = 0.
Proof.
  apply (dcdc_takes_a_parameter_and_is_unknown page5_chip 0x8b);
    [closed_wf | closed_eq ..].
Defined.

Lemma page_mode_burst_fills_row_witness :
  let base := Z.to_nat (active_page data_chip * 128 + active_column data_chip) in
  exists s',
    run data_chip (map I2cWrite [0x11; 0x22; 0x33]) = Some s'
    /\ (forall (i : nat) v, [0x11; 0x22; 0x33] !! i = Some v ->
                            pixels s' !! (base + i)%nat = Some v)
    /\ (forall j : nat, (j < base \/ base + length [0x11; 0x22; 0x33] <= j)%nat ->
                        pixels s' !! j = pixels data_chip !! j).
Proof.
  apply (page_mode_burst_fills_row [0x11; 0x22; 0x33] data_chip);
    [closed_ready | closed_eq | closed_eq | closed_range].
Defined.

Lemma defined_runs_keep_invariants_witness :
  wf_state page5_chip /\ panel_128 page5_chip /\ cursor_invariant page5_chip
  /\ 0 <= current_command_index page5_chip < COMMAND_SIZE
  /\ is_Some (pixels page5_chip !! Z.to_nat (data_target page5_chip)).
Proof.
  apply (defined_runs_keep_invariants blank_memory page5_chip
           [I2cConnect; I2cWrite 0x00; I2cWrite 0xb5; I2cWrite CMD_COM_SCAN_DEC]).
  - closed_wf.
  - repeat (apply Forall_cons; split; [closed_range|]). constructor.
  - closed_eq.
Defined.

Lemma bytes_inside_the_table_are_safe_witness :
  is_Some (run (chip_init blank_memory 128 128)
             [I2cConnect; I2cWrite 0x00; I2cWrite CMD_SET_CONTRAST; I2cWrite 0x10;
              TimerFire]).
Proof.
  apply (bytes_inside_the_table_are_safe blank_memory).
  - closed_wf.
  - repeat (apply Forall_cons; split; [closed_range|]). constructor.
Defined.
